(** * pbxamo: the FreePBX / AmoCRM bridge, embedded in Rocq

    Source files: [integration.py] and its later revision
    [integration_debug.py] ("v2.0").  Functions that are the same in both
    files (up to logging) are embedded once; functions that differ live in
    the modules [Integration] and [IntegrationDebug]. *)

From Stdlib Require Import ZArith NArith List Bool String Ascii Lia.
From stdpp Require Import gmap list.
Import ListNotations.

Local Open Scope Z_scope.

(** ** Python strings

    A Python [str] is a sequence of Unicode code points. *)

Abbreviation str := (list N).

(** A string literal of the source (the literals used are all ASCII). *)
Definition lit (s : string) : str :=
  List.map N_of_ascii (list_ascii_of_string s).

(** [prefix.startswith] seen from the prefix: [startswith p s] is
    [s.startswith(p)]. *)
Fixpoint startswith (p s : str) : bool :=
  match p, s with
  | [], _ => true
  | _ :: _, [] => false
  | a :: p', b :: s' => N.eqb a b && startswith p' s'
  end.

(** [needle in hay] on strings: substring search. *)
Fixpoint contains (needle hay : str) : bool :=
  startswith needle hay ||
  match hay with
  | [] => false
  | _ :: hay' => contains needle hay'
  end.

(** [s.endswith(suffix)]. *)
Definition endswith (suffix s : str) : bool :=
  startswith (rev suffix) (rev s).

(** ASCII case folding: what [str.lower] does on code points below 128. *)
Definition ascii_lower (c : N) : N :=
  if (N.leb 65 c && N.leb c 90)%bool then (c + 32)%N else c.

Definition ascii_isdigit (c : N) : bool :=
  (N.leb 48 c && N.leb c 57)%bool.

Definition is_ascii (c : N) : Prop := (c < 128)%N.

Definition all_ascii (s : str) : bool := forallb (fun c => N.ltb c 128) s.

(** The two built-ins of [str] the program calls, [str.isdigit] (on one
    character) and [str.lower].  Their Unicode tables are CPython's, not the
    repository's; what is fixed here is their behaviour on ASCII. *)
Class PyUnicode := {
  isdigit : N -> bool;
  lower : str -> str;
  isdigit_ascii : forall c, is_ascii c -> isdigit c = ascii_isdigit c;
  lower_ascii : forall s, Forall is_ascii s -> lower s = List.map ascii_lower s
}.

(** The restriction of both built-ins to ASCII text is an instance; the
    closed examples below run on ASCII text, where all instances agree. *)
Definition ascii_only_isdigit (c : N) : bool := ascii_isdigit c.
Definition ascii_only_lower (s : str) : str := List.map ascii_lower s.

#[export] Instance ascii_unicode : PyUnicode :=
  {| isdigit := ascii_only_isdigit;
     lower := ascii_only_lower;
     isdigit_ascii := fun c _ => eq_refl;
     lower_ascii := fun s _ => eq_refl |}.

(** ** Data model *)

(** [datetime.now()]: a naive local timestamp, counted in microseconds. *)
Abbreviation datetime := Z.

(** [(later - earlier).seconds]: the seconds field of the normalised
    [timedelta] (days, seconds, microseconds), with [0 <= seconds < 86400]. *)
Definition timedelta_seconds (later earlier : datetime) : Z :=
  ((later - earlier) mod 86400000000) / 1000000.

(** The values [detect_direction] returns. *)
Inductive direction := inbound | outbound | internal | unknown.

(** An entry of [active_channels]: a dict whose keys ["exten"] and
    ["context"] exist only in [integration_debug.py] and whose key
    ["answer_time"] exists only once the channel has entered a bridge. *)
Record call := {
  channel : str;
  callerid : str;
  exten : option str;
  context : option str;
  start_time : datetime;
  call_direction : direction;
  connected : bool;
  answer_time : option datetime
}.

(** The dict handed to [process_call].  ["timestamp"] is the ISO rendering
    of [start_time], kept as the timestamp itself; ["internal_call"] exists
    only in [integration_debug.py]. *)
Record call_data := {
  phone : str;
  cd_direction : direction;
  duration : Z;
  status : str;
  cd_uniqueid : str;
  timestamp : datetime;
  internal_call : option bool
}.

(** The AMI events the handler registers for, with the fields it reads.
    [Cause-txt] is read with a default, so it may be missing. *)
Inductive event :=
| Newchannel (uniqueid channel calleridnum exten context : str)
| BridgeEnter (uniqueid : str)
| Hangup (uniqueid : str) (cause_txt : option str).

Definition event_uniqueid (ev : event) : str :=
  match ev with
  | Newchannel u _ _ _ _ => u
  | BridgeEnter u => u
  | Hangup u _ => u
  end.

Definition is_hangup (ev : event) : bool :=
  match ev with Hangup _ _ => true | _ => false end.

(** Truth value of an [Optional[str]]: [None] and the empty string are
    false. *)
Definition truthy (s : option str) : bool :=
  match s with
  | Some (_ :: _) => true
  | _ => false
  end.

(** ** JSON values and Python's operations on them *)

(** A parsed JSON document; [JNull] is Python's [None], and a dict keeps
    its entries in order with every key occurring once. *)
#[warnings="-register-all"]
Inductive json :=
| JNull
| JBool (b : bool)
| JNum (n : Z)
| JStr (s : str)
| JList (items : list json)
| JDict (entries : list (str * json)).

(** The exceptions the modelled operations raise. *)
Inductive exn :=
| KeyError (key : str)
| IndexError
| TypeError
| AttributeError
| ContentTypeError.

Inductive result (A : Type) :=
| Ok (a : A)
| Raise (e : exn).

Arguments Ok {A} a.
Arguments Raise {A} e.

(** Truth value of a JSON value, as [if v:] and [not v] take it. *)
Definition py_bool (v : json) : bool :=
  match v with
  | JNull => false
  | JBool b => b
  | JNum n => negb (Z.eqb n 0)
  | JStr s => negb (Nat.eqb (length s) 0)
  | JList l => negb (Nat.eqb (length l) 0)
  | JDict d => negb (Nat.eqb (length d) 0)
  end.

Fixpoint dict_lookup (key : str) (entries : list (str * json)) : option json :=
  match entries with
  | [] => None
  | (k, v) :: rest => if bool_decide (k = key) then Some v else dict_lookup key rest
  end.

(** [v[key]] for a string key. *)
Definition getitem (v : json) (key : str) : result json :=
  match v with
  | JDict d =>
      match dict_lookup key d with
      | Some x => Ok x
      | None => Raise (KeyError key)
      end
  | _ => Raise TypeError
  end.

(** [v[0]]. *)
Definition getitem0 (v : json) : result json :=
  match v with
  | JList (x :: _) => Ok x
  | JList [] => Raise IndexError
  | JStr (c :: _) => Ok (JStr [c])
  | JStr [] => Raise IndexError
  | JDict _ => Raise (KeyError (lit "0"))
  | _ => Raise TypeError
  end.

(** [v.get(key, dflt)]: only dicts have the method. *)
Definition dict_get (v : json) (key : str) (dflt : json) : result json :=
  match v with
  | JDict d => Ok (default dflt (dict_lookup key d))
  | _ => Raise AttributeError
  end.

(** ** The CRM seen from the client *)

(** The URLs the client builds, kept structured: [contacts?query=<q>],
    [leads/unsorted/forms], [contacts/<id>/notes]. *)
Inductive endpoint :=
| contacts_query (phone_clean : str)
| leads_unsorted_forms
| contact_notes (contact_id : json).

(** What the client sends: the POST to [/oauth2/access_token] with the
    refresh token it carries, a JSON request to [/api/v4/...] with its
    bearer token, and the multipart upload to [contacts/<id>/files]. *)
Inductive request :=
| TokenRequest (grant_type : str) (sent_refresh_token : json)
| ApiRequest (method : str) (ep : endpoint) (bearer : json) (data : json)
| FileUpload (contact_id : json) (bearer : json) (file_name : str).

(** A response: its status, and its body when the body is JSON. *)
Record response := {
  resp_status : Z;
  resp_json : option json
}.

(** The CRM server: a deterministic function of the requests received so
    far, the latest first.  Every request gets a response; failures of the
    transport itself are outside the model. *)
Definition server : Type := list request -> response.

(** The state of the [AmoCRMAPI] object, the token file it writes and the
    requests it has sent, latest first. *)
Record amocrm := {
  access_token : json;
  refresh_token : json;
  token_file : option (json * json);
  sent : list request
}.

(** Computations on that state that may raise; what was written before a
    raise stays written. *)
Definition M (A : Type) : Type := amocrm -> result A * amocrm.

Definition ret {A} (a : A) : M A := fun st => (Ok a, st).

Definition raise {A} (e : exn) : M A := fun st => (Raise e, st).

Definition bind {A B} (m : M A) (k : A -> M B) : M B :=
  fun st =>
    match m st with
    | (Ok a, st') => k a st'
    | (Raise e, st') => (Raise e, st')
    end.

Definition lift {A} (r : result A) : M A := fun st => (r, st).

Definition get_self : M amocrm := fun st => (Ok st, st).

Notation "x <- m ;; k" := (bind m (fun x => k))
  (at level 100, m at next level, right associativity).
Notation "m ;;; k" := (bind m (fun _ => k))
  (at level 100, right associativity).

Definition set_access_token (v : json) : M unit := fun st =>
  (Ok tt, {| access_token := v; refresh_token := refresh_token st;
             token_file := token_file st; sent := sent st |}).

Definition set_refresh_token (v : json) : M unit := fun st =>
  (Ok tt, {| access_token := access_token st; refresh_token := v;
             token_file := token_file st; sent := sent st |}).

(** [save_tokens]: the file gets the current pair ([updated_at], a clock
    reading nobody reads back, is left out). *)
Definition save_tokens : M unit := fun st =>
  (Ok tt, {| access_token := access_token st;
             refresh_token := refresh_token st;
             token_file := Some (access_token st, refresh_token st);
             sent := sent st |}).

(** [await resp.json()]. *)
Definition json_of (resp : response) : result json :=
  match resp_json resp with
  | Some v => Ok v
  | None => Raise ContentTypeError
  end.

Definition count_token_requests (l : list request) : nat :=
  length (List.filter (fun r => match r with TokenRequest _ _ => true | _ => false end) l).

Definition count_api_requests (l : list request) : nat :=
  length (List.filter (fun r => match r with ApiRequest _ _ _ _ => true | _ => false end) l).

(** The state after a request has been sent. *)
Definition after_request (rq : request) (st : amocrm) : amocrm :=
  {| access_token := access_token st; refresh_token := refresh_token st;
     token_file := token_file st; sent := rq :: sent st |}.

Section Client.
Context `{PyUnicode}.
Variable crm : server.

(** One HTTP exchange. *)
Definition http (rq : request) : M response := fun st =>
  (Ok (crm (rq :: sent st)), after_request rq st).

(** [AmoCRMAPI.refresh_tokens]. *)
Definition refresh_tokens : M unit :=
  self <- get_self ;;
  resp <- http (TokenRequest (lit "refresh_token") (refresh_token self)) ;;
  result <- lift (json_of resp) ;;
  a <- lift (getitem result (lit "access_token")) ;;
  set_access_token a ;;;
  r <- lift (getitem result (lit "refresh_token")) ;;
  set_refresh_token r ;;;
  save_tokens.

(** The body of [AmoCRMAPI.api_request], with its recursive call as
    [recur]. *)
Definition api_request_body (recur : M json)
    (method : str) (ep : endpoint) (data : json) (retry : bool) : M json :=
  self <- get_self ;;
  resp <- http (ApiRequest method ep (access_token self) data) ;;
  if Z.eqb (resp_status resp) 401 && retry
  then refresh_tokens ;;; recur
  else if Z.leb 400 (resp_status resp)
  then ret JNull
  else lift (json_of resp).

(** [AmoCRMAPI.api_request]: the recursive call passes [retry=False], so
    the recursion is at most one level deep; at that level the recursive
    call is dead code, whatever stands for it ([api_request_unfold] below
    is the recursion equation of the source). *)
Definition api_request (method : str) (ep : endpoint) (data : json)
    (retry : bool) : M json :=
  api_request_body
    (api_request_body (raise TypeError) method ep data false)
    method ep data retry.

(** [AmoCRMAPI.find_contact] of [integration.py]; that of
    [integration_debug.py] is [IntegrationDebug.find_contact]. *)
Definition find_contact (phone : str) : M json :=
  let phone_clean := List.filter isdigit phone in
  result <- api_request (lit "GET") (contacts_query phone_clean) JNull true ;;
  if py_bool result
  then
    embedded <- lift (dict_get result (lit "_embedded") (JDict [])) ;;
    contacts <- lift (dict_get embedded (lit "contacts") JNull) ;;
    if py_bool contacts
    then
      e <- lift (getitem result (lit "_embedded")) ;;
      cs <- lift (getitem e (lit "contacts")) ;;
      lift (getitem0 cs)
    else ret JNull
  else ret JNull.

(** [AmoCRMAPI.create_unsorted]. *)
Definition create_unsorted (phone : str) : M json :=
  let values := JList [JDict [(lit "value", JStr phone)]] in
  let field :=
    JDict [(lit "field_code", JStr (lit "PHONE")); (lit "values", values)] in
  let name :=
    JStr ([1053; 1086; 1074; 1099; 1081; 32; 1079; 1074; 1086; 1085;
           1086; 1082; 32; 1086; 1090; 32]%N ++ phone) in
  let lead :=
    JDict [(lit "name", name);
           (lit "custom_fields_values", JList [field])] in
  let data :=
    JList [JDict [(lit "source_name", JStr (lit "FreePBX"));
                  (lit "source_uid", JStr phone);
                  (lit "pipeline_id", JNull);
                  (lit "_embedded", JDict [(lit "leads", JList [lead])])]] in
  api_request (lit "POST") leads_unsorted_forms data true.

End Client.

(** ** Recording files *)

(** A file the recursive walk below [recordings_dir] reaches, with its
    modification time. *)
Record file := {
  file_path : str;
  mtime : Z
}.

(** [os.path.basename]: what follows the last slash. *)
Fixpoint basename (p : str) : str :=
  match p with
  | [] => []
  | c :: rest =>
      if contains (lit "/") rest then basename rest
      else if N.eqb c 47 then rest else p
  end.

(** Whether a file name matches the last component of the pattern
    [<recordings_dir>/**/*<uniqueid>*.<ext>], for a [uniqueid] without
    glob metacharacters: the name ends in [.<ext>], what precedes that
    ending contains [uniqueid], and, as [*] never matches a leading dot,
    the name is not a dot-file.  The match is case-sensitive. *)
Definition glob_match (uniqueid ext name : str) : bool :=
  negb (startswith (lit ".") name)
  && endswith (lit "." ++ ext) name
  && contains uniqueid (take (length name - length (lit "." ++ ext)) name).

(** [glob(pattern, recursive=True)] over the listing [fs] of what the
    recursive walk reaches, in the order of the walk; [walked] below
    computes that listing from what the directory holds. *)
Definition glob (fs : list file) (uniqueid ext : str) : list file :=
  List.filter (fun f => glob_match uniqueid ext (basename (file_path f))) fs.

(** [max(files, key=os.path.getmtime)] on a list whose head is [best]: a
    later file replaces the current one only when strictly newer. *)
Fixpoint max_by_mtime (best : file) (files : list file) : file :=
  match files with
  | [] => best
  | f :: rest => max_by_mtime (if Z.ltb (mtime best) (mtime f) then f else best) rest
  end.

(** The endings of the three patterns, in the order of the list
    [patterns]. *)
Definition patterns : list str := [lit "wav"; lit "WAV"; lit "mp3"].

(** The loop of [find_recording] over the patterns still to try. *)
Fixpoint find_recording_from (fs : list file) (uniqueid : str)
    (pats : list str) : option str :=
  match pats with
  | [] => None
  | ext :: rest =>
      match glob fs uniqueid ext with
      | f :: files => Some (file_path (max_by_mtime f files))
      | [] => find_recording_from fs uniqueid rest
      end
  end.

(** [CallProcessor.find_recording]. *)
Definition find_recording (fs : list file) (uniqueid : str) : option str :=
  find_recording_from fs uniqueid patterns.

(** [self.recordings_dir]. *)
Definition recordings_dir : str := lit "/var/spool/asterisk/monitor".

(** What the storage holds: every regular file and every directory, at
    any depth, with its full path and modification time, in the order in
    which a walk lists them. *)
Record entry := {
  entry_path : str;
  entry_mtime : Z;
  entry_is_dir : bool
}.

(** Whether the walk of [<recordings_dir>/**] leads to a path: the path
    lies below [recordings_dir], and no component of it below that
    directory starts with a dot, since [**] does not enter dot-directories
    and [*] does not match dot-names. *)
Definition visible (p : str) : bool :=
  let rel := drop (length (recordings_dir ++ lit "/")) p in
  startswith (recordings_dir ++ lit "/") p
  && negb (startswith (lit ".") rel)
  && negb (contains (lit "/.") rel).

(** The listing the walk yields: the visible entries, directories
    included, which [glob] then filters by name. *)
Definition walked (tree : list entry) : list file :=
  List.map (fun e => {| file_path := entry_path e; mtime := entry_mtime e |})
    (List.filter (fun e => visible (entry_path e)) tree).

(** The regular files among the entries. *)
Definition regular_files (tree : list entry) : list entry :=
  List.filter (fun e => negb (entry_is_dir e)) tree.

(** The regular files below [recordings_dir], at any depth and under
    whatever name: the files the specification speaks of. *)
Definition stored (tree : list entry) : list file :=
  List.map (fun e => {| file_path := entry_path e; mtime := entry_mtime e |})
    (List.filter
       (fun e => negb (entry_is_dir e)
                 && startswith (recordings_dir ++ lit "/") (entry_path e))
       tree).

(** [glob.has_magic]: whether a string holds one of [*], [?] and the
    opening bracket, which a pattern reads as wildcards. *)
Definition has_magic (s : str) : bool :=
  existsb (fun c => N.eqb c 42 || N.eqb c 63 || N.eqb c 91) s.

(** What follows the last dot of a file name; empty when it has no dot. *)
Fixpoint extension (name : str) : str :=
  match name with
  | [] => []
  | c :: rest =>
      if contains (lit ".") rest then extension rest
      else if N.eqb c 46 then rest else []
  end.

(** The locator as the specification words it, for comparison with
    [find_recording]: among the files whose name contains the id and whose
    extension, case ignored, is an allowed one, the latest modified. *)
Definition RecordingLocator_spec `{PyUnicode} (fs : list file)
    (uniqueid : str) : option str :=
  let allowed (ext : str) :=
    existsb (fun a => bool_decide (lower ext = a)) [lit "wav"; lit "mp3"] in
  let matches :=
    List.filter
      (fun f => contains uniqueid (basename (file_path f))
                && allowed (extension (basename (file_path f)))) fs in
  match matches with
  | f :: files => Some (file_path (max_by_mtime f files))
  | [] => None
  end.

(** [os.path.exists] on the listing. *)
Definition path_exists (fs : list file) (p : str) : bool :=
  existsb (fun f => bool_decide (file_path f = p)) fs.

Section Upload.
Variable crm : server.
Variable fs : list file.

(** [AmoCRMAPI.upload_recording]: one multipart POST when the file can be
    opened (a path of the listing is taken to be a readable regular
    file); whatever goes wrong is logged and swallowed. *)
Definition upload_recording (contact_id : json) (path : str) : M unit :=
  if path_exists fs path
  then
    self <- get_self ;;
    _ <- http crm (FileUpload contact_id (access_token self) (basename path)) ;;
    ret tt
  else ret tt.

End Upload.

(** ** Phone extraction (the same in both files) *)

Section Phone.
Context `{PyUnicode}.

(** [AsteriskAMIHandler.extract_phone]. *)
Definition extract_phone (c : call) : option str :=
  let callerid := callerid c in
  let phone := List.filter isdigit callerid in
  let phone :=
    if startswith (lit "8") phone && Nat.eqb (length phone) 11
    then lit "7" ++ drop 1 phone
    else phone in
  if Nat.leb 10 (length phone) then Some phone else None.

(** The normaliser as the specification words it, for comparison with
    [extract_phone]: strip the non-digits; a remaining string of length 11
    whose leading digit is 8 gets that digit replaced by 7; the result is
    accepted when it has at least 10 digits. *)
Definition PhoneNormalizer_spec (raw : str) : option str :=
  let digits := List.filter isdigit raw in
  let digits :=
    match digits with
    | d :: rest =>
        if Nat.eqb (length digits) 11 && N.eqb d 56 then 55%N :: rest
        else digits
    | [] => digits
    end in
  if Nat.leb 10 (length digits) then Some digits else None.

End Phone.

(** ** The AMI handler

    [active_channels] is a dict from [Uniqueid] to the call's dict.  A
    handler gets the reading of [datetime.now()] it makes, and returns the
    table it leaves together with the [process_call] tasks it created. *)

Definition handler : Type :=
  datetime -> event -> gmap str call -> gmap str call * list call_data.

(** [on_bridge_enter] (the same in both files). *)
Definition on_bridge_enter (now : datetime) (uniqueid : str)
    (active_channels : gmap str call) : gmap str call :=
  match active_channels !! uniqueid with
  | Some c =>
      <[uniqueid :=
          {| channel := channel c; callerid := callerid c;
             exten := exten c; context := context c;
             start_time := start_time c;
             call_direction := call_direction c;
             connected := true;
             answer_time := Some now |}]> active_channels
  | None => active_channels
  end.

(** The first half of [on_hangup] (the same in both files): duration and
    status of the call that ends at [end_time]. *)
Definition duration_status (c : call) (end_time : datetime)
    (cause_txt : str) : Z * str :=
  match answer_time c with
  | Some t => (timedelta_seconds end_time t, lit "ANSWERED")
  | None => (0, cause_txt)
  end.

(** How [add_call_to_contact] reads the status: answered or not. *)
Definition is_answered (st : str) : bool :=
  bool_decide (st = lit "ANSWERED").

(** Events are applied in arrival order; the tasks each handler creates
    are collected in creation order. *)
Fixpoint run (h : handler) (evs : list (datetime * event))
    (active_channels : gmap str call) : gmap str call * list call_data :=
  match evs with
  | [] => (active_channels, [])
  | (now, ev) :: rest =>
      let '(t1, out1) := h now ev active_channels in
      let '(t2, out2) := run h rest t1 in
      (t2, out1 ++ out2)
  end.


(** The classification as the specification words it, for comparison with
    [detect_direction]: the markers are looked for, ignoring case, in the
    channel name and in the context, in the order external trunk or PSTN,
    internal origination, local extension. *)
Definition has_marker `{PyUnicode} (marker channel context : str) : bool :=
  contains marker (lower channel) || contains marker (lower context).

Definition DirectionClassification_spec `{PyUnicode}
    (channel context : str) : direction :=
  if has_marker (lit "from-trunk") channel context
     || has_marker (lit "from-pstn") channel context
  then inbound
  else if has_marker (lit "from-internal") channel context
  then outbound
  else if has_marker (lit "ext-local") channel context
  then internal
  else unknown.

(** *** [integration.py] *)

Module Integration.
Section Handler.
Context `{PyUnicode}.

(** [detect_direction(channel)]. *)
Definition detect_direction (channel : str) : direction :=
  let channel_lower := lower channel in
  if contains (lit "from-trunk") channel_lower
     || contains (lit "from-pstn") channel_lower
  then inbound
  else if contains (lit "from-internal") channel_lower
  then outbound
  else unknown.

(** [on_new_channel]. *)
Definition on_new_channel (now : datetime)
    (uniqueid channel callerid : str)
    (active_channels : gmap str call) : gmap str call :=
  <[uniqueid :=
      {| channel := channel; callerid := callerid;
         exten := None; context := None;
         start_time := now;
         call_direction := detect_direction channel;
         connected := false;
         answer_time := None |}]> active_channels.

(** [on_hangup]. *)
Definition on_hangup (now : datetime) (uniqueid : str)
    (cause_txt : option str) (active_channels : gmap str call)
    : gmap str call * list call_data :=
  let cause_txt := default (lit "UNKNOWN") cause_txt in
  match active_channels !! uniqueid with
  | None => (active_channels, [])
  | Some c =>
      let end_time := now in
      let '(duration, status) := duration_status c end_time cause_txt in
      let phone := extract_phone c in
      if negb (truthy phone)
      then (delete uniqueid active_channels, [])
      else
        let call_data :=
          {| phone := default [] phone;
             cd_direction := call_direction c;
             duration := duration;
             status := status;
             cd_uniqueid := uniqueid;
             timestamp := start_time c;
             internal_call := None |} in
        (delete uniqueid active_channels, [call_data])
  end.

(** The callbacks as [connect] registers them. *)
Definition handle : handler := fun now ev active_channels =>
  match ev with
  | Newchannel u ch cid _ _ => (on_new_channel now u ch cid active_channels, [])
  | BridgeEnter u => (on_bridge_enter now u active_channels, [])
  | Hangup u cause => on_hangup now u cause active_channels
  end.

End Handler.

Section Processor.
Context `{PyUnicode}.
Variable crm : server.
Variable fs : list file.

(** [AmoCRMAPI.add_call_to_contact]. *)
Definition add_call_to_contact (contact_id : json) (phone : str)
    (cd : call_data) (recording_path : option str) : M json :=
  let call_note :=
    JDict [(lit "entity_id", contact_id);
           (lit "note_type",
            JStr (match cd_direction cd with
                  | inbound => lit "call_in"
                  | _ => lit "call_out"
                  end));
           (lit "params",
            JDict [(lit "phone", JStr phone);
                   (lit "duration", JNum (duration cd));
                   (lit "call_status",
                    JNum (if is_answered (status cd) then 4 else 6));
                   (lit "call_result",
                    JStr (if is_answered (status cd)
                          then [1059; 1089; 1087; 1077; 1096; 1085; 1086]%N
                          else [1053; 1077; 32; 1086; 1090; 1074; 1077; 1095;
                                1077; 1085]%N))])] in
  result <- api_request crm (lit "POST") (contact_notes contact_id)
              (JList [call_note]) true ;;
  (if truthy recording_path && path_exists fs (default [] recording_path)
   then upload_recording crm fs contact_id (default [] recording_path)
   else ret tt) ;;;
  ret result.

(** [CallProcessor.process_call]. *)
Definition process_call (cd : call_data) : M unit :=
  let phone := phone cd in
  contact <- find_contact crm phone ;;
  if negb (py_bool contact)
  then create_unsorted crm phone ;;; ret tt
  else
    let recording_path := find_recording fs (cd_uniqueid cd) in
    contact_id <- lift (getitem contact (lit "id")) ;;
    add_call_to_contact contact_id phone cd recording_path ;;;
    ret tt.

End Processor.

Section Housekeeping.
Variable crm : server.

(** [Config.get]: walk down the parsed configuration; a missing
    key or a null gives [None] at once, and a value without [.get] on
    the way raises. *)
Fixpoint Config_get (value : json) (keys : list str) : result json :=
  match keys with
  | [] => Ok value
  | key :: rest =>
      match dict_get value key JNull with
      | Ok JNull => Ok JNull
      | Ok v => Config_get v rest
      | Raise e => Raise e
      end
  end.

(** One turn of the loop of [main], after its sleep, at a wall clock
    whose minute field is [minute]: the refresh it attempts on the hour,
    with whatever it raises logged and dropped. *)
Definition main_loop_turn (minute : Z) : M unit := fun st =>
  if Z.eqb minute 0
  then (Ok tt, snd (refresh_tokens crm st))
  else (Ok tt, st).

End Housekeeping.

End Integration.

(** *** [integration_debug.py] *)

(** The two settings of the ["debug"] section of the configuration that
    change what [on_hangup] does: the truth value of
    ["process_internal_calls"] and the string ["test_phone"], if present. *)
Record debug_config := {
  process_internal_calls : bool;
  test_phone : option str
}.

Module IntegrationDebug.
Section Handler.
Context `{PyUnicode}.
Variable config : debug_config.

(** [detect_direction(channel, context)]. *)
Definition detect_direction (channel context : str) : direction :=
  let channel_lower := lower channel in
  let context_lower := lower context in
  if contains (lit "from-trunk") channel_lower
     || contains (lit "from-pstn") channel_lower
  then inbound
  else if contains (lit "from-trunk") context_lower
          || contains (lit "from-pstn") context_lower
  then inbound
  else if contains (lit "from-internal") channel_lower
          || contains (lit "from-internal") context_lower
  then outbound
  else if contains (lit "ext-local") context_lower
  then internal
  else unknown.

(** [on_new_channel]. *)
Definition on_new_channel (now : datetime)
    (uniqueid channel callerid exten context : str)
    (active_channels : gmap str call) : gmap str call :=
  <[uniqueid :=
      {| channel := channel; callerid := callerid;
         exten := Some exten; context := Some context;
         start_time := now;
         call_direction := detect_direction channel context;
         connected := false;
         answer_time := None |}]> active_channels.

(** [on_hangup], with the substitution of the test number for calls whose
    caller id yields no phone. *)
Definition on_hangup (now : datetime) (uniqueid : str)
    (cause_txt : option str) (active_channels : gmap str call)
    : gmap str call * list call_data :=
  let cause_txt := default (lit "UNKNOWN") cause_txt in
  match active_channels !! uniqueid with
  | None => (active_channels, [])
  | Some c =>
      let end_time := now in
      let '(duration, status) := duration_status c end_time cause_txt in
      let phone := extract_phone c in
      let phone :=
        if negb (truthy phone) && process_internal_calls config
        then (if truthy (test_phone config) then test_phone config
              else phone)
        else phone in
      if negb (truthy phone)
      then (delete uniqueid active_channels, [])
      else
        let call_data :=
          {| phone := default [] phone;
             cd_direction := call_direction c;
             duration := duration;
             status := status;
             cd_uniqueid := uniqueid;
             timestamp := start_time c;
             internal_call := Some (Nat.leb (length (callerid c)) 4) |} in
        (delete uniqueid active_channels, [call_data])
  end.

(** The callbacks as [connect] registers them. *)
Definition handle : handler := fun now ev active_channels =>
  match ev with
  | Newchannel u ch cid ex ctx =>
      (on_new_channel now u ch cid ex ctx active_channels, [])
  | BridgeEnter u => (on_bridge_enter now u active_channels, [])
  | Hangup u cause => on_hangup now u cause active_channels
  end.

End Handler.

Section Processor.
Context `{PyUnicode}.
Variable crm : server.
Variable fs : list file.

(** [AmoCRMAPI.add_call_to_contact]. *)
Definition add_call_to_contact (contact_id : json) (phone : str)
    (cd : call_data) (recording_path : option str) : M json :=
  let call_note :=
    JDict [(lit "entity_id", contact_id);
           (lit "note_type",
            JStr (match cd_direction cd with
                  | inbound => lit "call_in"
                  | outbound => lit "call_out"
                  | _ => lit "call_in"
                  end));
           (lit "params",
            JDict [(lit "phone", JStr phone);
                   (lit "duration", JNum (duration cd));
                   (lit "call_status",
                    JNum (if is_answered (status cd) then 4 else 6));
                   (lit "call_result",
                    JStr (if is_answered (status cd)
                          then [1059; 1089; 1087; 1077; 1096; 1085; 1086]%N
                          else [1053; 1077; 32; 1086; 1090; 1074; 1077; 1095;
                                1077; 1085]%N))])] in
  result <- api_request crm (lit "POST") (contact_notes contact_id)
              (JList [call_note]) true ;;
  (if truthy recording_path && path_exists fs (default [] recording_path)
   then upload_recording crm fs contact_id (default [] recording_path)
   else ret tt) ;;;
  ret result.

(** [AmoCRMAPI.find_contact]: as in [integration.py], except that the
    line logging a contact found reads [contact['id']] and then
    [contact.get('name', 'N/A')] before the contact is returned, so a
    first contact without an id, or one that is no dict, raises here. *)
Definition find_contact (phone : str) : M json :=
  let phone_clean := List.filter isdigit phone in
  result <- api_request crm (lit "GET") (contacts_query phone_clean) JNull true ;;
  if py_bool result
  then
    embedded <- lift (dict_get result (lit "_embedded") (JDict [])) ;;
    contacts <- lift (dict_get embedded (lit "contacts") JNull) ;;
    if py_bool contacts
    then
      e <- lift (getitem result (lit "_embedded")) ;;
      cs <- lift (getitem e (lit "contacts")) ;;
      contact <- lift (getitem0 cs) ;;
      _ <- lift (getitem contact (lit "id")) ;;
      _ <- lift (dict_get contact (lit "name") (JStr (lit "N/A"))) ;;
      ret contact
    else ret JNull
  else ret JNull.

(** [CallProcessor.process_call]. *)
Definition process_call (cd : call_data) : M unit :=
  let phone := phone cd in
  contact <- find_contact phone ;;
  if negb (py_bool contact)
  then create_unsorted crm phone ;;; ret tt
  else
    let recording_path := find_recording fs (cd_uniqueid cd) in
    contact_id <- lift (getitem contact (lit "id")) ;;
    add_call_to_contact contact_id phone cd recording_path ;;;
    ret tt.

End Processor.

Section Housekeeping.
Variable crm : server.

(** [Config.get], with its [default] argument: as in [integration.py], but a
    value that is not a dict on the way gives the default, as a missing
    key or a null does. *)
Fixpoint Config_get (value : json) (keys : list str) (dflt : json) : json :=
  match keys with
  | [] => value
  | key :: rest =>
      match value with
      | JDict d =>
          match default JNull (dict_lookup key d) with
          | JNull => dflt
          | v => Config_get v rest dflt
          end
      | _ => dflt
      end
  end.

(** One turn of the loop of [main]: here the refresh on the hour is
    attempted only when a refresh token is stored. *)
Definition main_loop_turn (minute : Z) : M unit := fun st =>
  if Z.eqb minute 0 && py_bool (refresh_token st)
  then (Ok tt, snd (refresh_tokens crm st))
  else (Ok tt, st).

End Housekeeping.

End IntegrationDebug.

(** Either file's handler. *)
Inductive source_file :=
| integration_py
| integration_debug_py (config : debug_config).

Definition handle_of `{PyUnicode} (f : source_file) : handler :=
  match f with
  | integration_py => Integration.handle
  | integration_debug_py config => IntegrationDebug.handle config
  end.

Definition creates (uid : str) (ev : event) : bool :=
  match ev with
  | Newchannel u _ _ _ _ => bool_decide (u = uid)
  | _ => false
  end.

Definition count_hangups (evs : list (datetime * event)) : nat :=
  length (List.filter (fun e => is_hangup (snd e)) evs).

(** Either file's [find_contact]. *)
Definition find_contact_of `{PyUnicode} (f : source_file) (crm : server)
    (phone : str) : M json :=
  match f with
  | integration_py => find_contact crm phone
  | integration_debug_py _ => IntegrationDebug.find_contact crm phone
  end.

(** An answer to the lookup that lists no contact: it is falsy as a
    whole, or what it holds under ["_embedded"], ["contacts"] is. *)
Definition lists_no_contact (result : json) : Prop :=
  py_bool result = false \/
  exists embedded contacts,
    dict_get result (lit "_embedded") (JDict []) = Ok embedded /\
    dict_get embedded (lit "contacts") JNull = Ok contacts /\
    py_bool contacts = false.

(** Either file's [process_call]; the debug settings play no part in it. *)
Definition process_call_of `{PyUnicode} (f : source_file)
    (crm : server) (fs : list file) (cd : call_data) : M unit :=
  match f with
  | integration_py => Integration.process_call crm fs cd
  | integration_debug_py _ => IntegrationDebug.process_call crm fs cd
  end.

(** A request made with [retry=True] from state [st] ends in an HTTP
    error status, leaving state [st']: either the first answer has a
    status from 400 on other than 401, or it is 401, the refresh succeeds
    and the answer to the retry has a status from 400 on. *)
Definition ends_in_http_error (crm : server) (method : str) (ep : endpoint)
    (data : json) (st st' : amocrm) : Prop :=
  let rq1 := ApiRequest method ep (access_token st) data in
  (resp_status (crm (rq1 :: sent st)) <> 401 /\
   400 <= resp_status (crm (rq1 :: sent st)) /\
   st' = after_request rq1 st)
  \/
  (resp_status (crm (rq1 :: sent st)) = 401 /\
   exists st2,
     refresh_tokens crm (after_request rq1 st) = (Ok tt, st2) /\
     400 <= resp_status
              (crm (ApiRequest method ep (access_token st2) data :: sent st2)) /\
     st' = after_request (ApiRequest method ep (access_token st2) data) st2).

(** ** Concurrent refreshes

    [process_call] runs as one asyncio task per finished call, and the main
    loop refreshes on its own, so several [refresh_tokens] coroutines can
    be alive at once.  They run on one event loop and give way to each
    other only at an [await] that suspends: for [refresh_tokens] that is
    the POST.  A task is therefore either not started, suspended in the
    POST with the response the server has produced for it, or finished;
    a finished task records its outcome and the token pair its caller
    finds on resuming. *)

Inductive refresh_task :=
| NotStarted
| AwaitingResponse (resp : response)
| Finished (r : result unit) (observed : json * json).

Definition is_finished (t : refresh_task) : bool :=
  match t with Finished _ _ => true | _ => false end.

Definition is_started (t : refresh_task) : bool :=
  match t with NotStarted => false | _ => true end.

Definition count_not_started (tasks : list refresh_task) : nat :=
  length (List.filter (fun t => negb (is_started t)) tasks).

Section Scheduler.
Variable crm : server.

(** What [refresh_tokens] does up to its suspension in the POST. *)
Definition refresh_send : M response :=
  self <- get_self ;;
  http crm (TokenRequest (lit "refresh_token") (refresh_token self)).

(** What [refresh_tokens] does once the response is there. *)
Definition refresh_receive (resp : response) : M unit :=
  result <- lift (json_of resp) ;;
  a <- lift (getitem result (lit "access_token")) ;;
  set_access_token a ;;;
  r <- lift (getitem result (lit "refresh_token")) ;;
  set_refresh_token r ;;;
  save_tokens.

(** One uninterrupted run of a task, from where it stands to its next
    suspension or to its end. *)
Definition refresh_step (t : refresh_task) (st : amocrm)
    : refresh_task * amocrm :=
  match t with
  | NotStarted =>
      match refresh_send st with
      | (Ok resp, st') => (AwaitingResponse resp, st')
      | (Raise e, st') => (Finished (Raise e) (access_token st', refresh_token st'), st')
      end
  | AwaitingResponse resp =>
      let '(r, st') := refresh_receive resp st in
      (Finished r (access_token st', refresh_token st'), st')
  | Finished r o => (Finished r o, st)
  end.

(** The event loop resumes task number [i]. *)
Fixpoint resume (i : nat) (tasks : list refresh_task) (st : amocrm)
    {struct tasks} : list refresh_task * amocrm :=
  match tasks with
  | [] => ([], st)
  | t :: rest =>
      match i with
      | O => let '(t', st') := refresh_step t st in (t' :: rest, st')
      | S i' => let '(rest', st') := resume i' rest st in (t :: rest', st')
      end
  end.

(** A schedule is the order in which the loop resumes the tasks. *)
Fixpoint run_schedule (schedule : list nat) (tasks : list refresh_task)
    (st : amocrm) : list refresh_task * amocrm :=
  match schedule with
  | [] => (tasks, st)
  | i :: rest =>
      let '(tasks', st') := resume i tasks st in
      run_schedule rest tasks' st'
  end.

End Scheduler.

(** ** Scenarios used in the examples *)

(** A CRM that rotates the pair on every token request: the [k]-th
    exchange hands out a pair that spells [k]; every API request is
    answered 200 with an empty contact list. *)
Definition rotating_crm : server := fun history =>
  match history with
  | TokenRequest _ _ :: _ =>
      let k := count_token_requests history in
      {| resp_status := 200;
         resp_json :=
           Some (JDict [(lit "access_token", JStr (lit "a" ++ List.repeat 49%N k));
                        (lit "refresh_token", JStr (lit "r" ++ List.repeat 49%N k))]) |}
  | _ => {| resp_status := 200; resp_json := Some (JDict []) |}
  end.

(** A CRM that answers every API request 401 and every token request with
    a fresh pair. *)
Definition always_401_crm : server := fun history =>
  match history with
  | TokenRequest _ _ :: _ => rotating_crm history
  | _ => {| resp_status := 401; resp_json := Some (JDict []) |}
  end.

(** A CRM that answers every API request 500. *)
Definition always_500_crm : server := fun history =>
  {| resp_status := 500; resp_json := None |}.

(** A CRM whose access tokens have expired and whose refresh token is no
    longer accepted: API requests get 401, token requests an error
    document without tokens. *)
Definition expired_crm : server := fun history =>
  match history with
  | TokenRequest _ _ :: _ =>
      {| resp_status := 400;
         resp_json := Some (JDict [(lit "hint", JStr (lit "Token has expired"))]) |}
  | _ => {| resp_status := 401; resp_json := Some (JDict []) |}
  end.

(** A client that has never been authorised. *)
Definition unauthenticated : amocrm :=
  {| access_token := JNull; refresh_token := JNull;
     token_file := None; sent := [] |}.

(** A client holding a pair. *)
Definition authenticated : amocrm :=
  {| access_token := JStr (lit "a"); refresh_token := JStr (lit "r");
     token_file := Some (JStr (lit "a"), JStr (lit "r")); sent := [] |}.

(** A call dict with a given caller id. *)
Definition call_with_callerid (cid : str) : call :=
  {| channel := []; callerid := cid; exten := None; context := None;
     start_time := 0; call_direction := unknown; connected := false;
     answer_time := None |}.

(** An inbound call from a Moscow mobile number, as the switch reports
    it. *)
Definition sample_uid : str := lit "1634567890.123".

Definition sample_newchannel : event :=
  Newchannel sample_uid (lit "SIP/from-trunk-0001") (lit "8-916-123-45-67")
    (lit "101") (lit "from-trunk").

(** The call is created at 0 s and answered at 5 s. *)
Definition answered_call : list (datetime * event) :=
  [(0, sample_newchannel); (5000000, BridgeEnter sample_uid)].

(** It is hung up one day and 5 s after it was answered. *)
Definition day_long_call : list (datetime * event) :=
  answered_call ++ [(5000000 + 86405000000, Hangup sample_uid None)].

(** It is never answered and hung up at 20 s. *)
Definition unanswered_call : list (datetime * event) :=
  [(0, sample_newchannel);
   (20000000, Hangup sample_uid (Some (lit "User busy")))].

(** The fact the answered sample call produces when hung up at 12 s. *)
Definition sample_fact : call_data :=
  {| phone := lit "79161234567"; cd_direction := inbound; duration := 7;
     status := lit "ANSWERED"; cd_uniqueid := sample_uid; timestamp := 0;
     internal_call := None |}.


(** Three storages: a recording kept as [.MP3]; the call recorded
    twice, below a year directory; and a recording that lies in a
    dot-directory. *)
Definition upper_case_tree : list entry :=
  [{| entry_path := lit "/var/spool/asterisk/monitor/2021/10/18/in-1634567890.123.MP3";
      entry_mtime := 100; entry_is_dir := false |}].

Definition two_formats_tree : list entry :=
  [{| entry_path := lit "/var/spool/asterisk/monitor/2021";
      entry_mtime := 50; entry_is_dir := true |};
   {| entry_path := lit "/var/spool/asterisk/monitor/2021/10/18/in-1634567890.123.wav";
      entry_mtime := 100; entry_is_dir := false |};
   {| entry_path := lit "/var/spool/asterisk/monitor/2021/10/18/in-1634567890.123.mp3";
      entry_mtime := 200; entry_is_dir := false |}].

(** A storage in which a directory carries the name of a recording and
    is newer than the recording itself. *)
Definition directory_match_tree : list entry :=
  [{| entry_path := lit "/var/spool/asterisk/monitor/in-1634567890.123.wav";
      entry_mtime := 300; entry_is_dir := true |};
   {| entry_path := lit "/var/spool/asterisk/monitor/2021/in-1634567890.123.wav";
      entry_mtime := 100; entry_is_dir := false |}].

Definition dot_directory_tree : list entry :=
  [{| entry_path := lit "/var/spool/asterisk/monitor/.trash/in-1634567890.123.wav";
      entry_mtime := 100; entry_is_dir := false |}].

(** ** The rest of the client and of the web server *)

(** [AmoCRMAPI.load_tokens]: when the token file exists, both tokens are
    taken from it. *)
Definition load_tokens : M unit := fun st =>
  match token_file st with
  | Some (a, r) =>
      (Ok tt, {| access_token := a; refresh_token := r;
                 token_file := token_file st; sent := sent st |})
  | None => (Ok tt, st)
  end.

(** The object [main] builds on start: no tokens in memory, the token
    file as the previous run left it. *)
Definition fresh_client (file : option (json * json)) : amocrm :=
  {| access_token := JNull; refresh_token := JNull;
     token_file := file; sent := [] |}.

(** The token file holds the pair that is in memory. *)
Definition persisted (st : amocrm) : Prop :=
  token_file st = Some (access_token st, refresh_token st).

(** The settings of the ["amocrm"] section the client is built from. *)
Record oauth_app := {
  subdomain : str;
  client_id : str;
  client_secret : str;
  redirect_uri : str
}.

(** [AmoCRMAPI.get_auth_code_url]. *)
Definition get_auth_code_url (app : oauth_app) : str :=
  (lit "https://" ++ subdomain app ++ lit ".amocrm.ru")
  ++ lit "/oauth?"
  ++ lit "client_id=" ++ client_id app ++ lit "&"
  ++ lit "redirect_uri=" ++ redirect_uri app ++ lit "&"
  ++ lit "mode=post_message&"
  ++ lit "state=amocrm_auth".

(** What [exchange_code] and its caller deal in: the exceptions of the
    operations above, and the [Exception] that [exchange_code] raises
    itself, whose message is the text of the refused response. *)
Inductive exception :=
| Builtin (e : exn)
| AuthorizationError (refused : response).

Inductive outcome (A : Type) :=
| Returned (a : A)
| Raised (e : exception).

Arguments Returned {A} a.
Arguments Raised {A} e.

Section Authorization.
Variable crm : server.

(** [AmoCRMAPI.exchange_code]: the POST with the authorization code;
    any status but 200 raises, and a 200 is taken in as [refresh_tokens]
    takes in its answer. *)
Definition exchange_code (code : str) (st : amocrm)
    : outcome unit * amocrm :=
  let rq := TokenRequest (lit "authorization_code") (JStr code) in
  let resp := crm (rq :: sent st) in
  let st1 := after_request rq st in
  if negb (Z.eqb (resp_status resp) 200)
  then (Raised (AuthorizationError resp), st1)
  else
    match refresh_receive resp st1 with
    | (Ok _, st2) => (Returned tt, st2)
    | (Raise e, st2) => (Raised (Builtin e), st2)
    end.

(** The three replies of [WebhookServer.handle_oauth]: status 400 with
    the authorization URL, status 200, status 500 with the exception's
    text. *)
Inductive oauth_reply :=
| NoCodeProvided (auth_url : str)
| AuthorizationSucceeded
| AuthorizationFailed (e : exception).

Definition reply_status (r : oauth_reply) : Z :=
  match r with
  | NoCodeProvided _ => 400
  | AuthorizationSucceeded => 200
  | AuthorizationFailed _ => 500
  end.

(** [WebhookServer.handle_oauth], on the [code] parameter of the query
    string. *)
Definition handle_oauth (app : oauth_app) (code : option str)
    (st : amocrm) : oauth_reply * amocrm :=
  if negb (truthy code)
  then (NoCodeProvided (get_auth_code_url app), st)
  else
    match exchange_code (default [] code) st with
    | (Returned _, st') => (AuthorizationSucceeded, st')
    | (Raised e, st') => (AuthorizationFailed e, st')
    end.

End Authorization.

Definition count_uploads (l : list request) : nat :=
  length (List.filter (fun r => match r with FileUpload _ _ _ => true | _ => false end) l).

Definition count_newchannels (evs : list (datetime * event)) : nat :=
  length (List.filter
            (fun e => match snd e with Newchannel _ _ _ _ _ => true | _ => false end)
            evs).

(** The events of one call, and the facts of one call. *)
Definition events_of (uid : str) (evs : list (datetime * event))
    : list (datetime * event) :=
  List.filter (fun e => bool_decide (event_uniqueid (snd e) = uid)) evs.

Definition facts_of (uid : str) (facts : list call_data) : list call_data :=
  List.filter (fun cd => bool_decide (cd_uniqueid cd = uid)) facts.

(** Either file's [add_call_to_contact]. *)
Definition add_call_to_contact_of (f : source_file) (crm : server)
    (fs : list file) (contact_id : json) (phone : str) (cd : call_data)
    (recording_path : option str) : M json :=
  match f with
  | integration_py =>
      Integration.add_call_to_contact crm fs contact_id phone cd recording_path
  | integration_debug_py _ =>
      IntegrationDebug.add_call_to_contact crm fs contact_id phone cd
        recording_path
  end.

(** A CRM that knows one contact, number 42, and refuses every note. *)
Definition refusing_notes_crm : server := fun history =>
  match history with
  | ApiRequest _ (contacts_query _) _ _ :: _ =>
      {| resp_status := 200;
         resp_json :=
           Some (JDict [(lit "_embedded",
                         JDict [(lit "contacts",
                                 JList [JDict [(lit "id", JNum 42)]])])]) |}
  | ApiRequest _ (contact_notes _) _ _ :: _ =>
      {| resp_status := 422; resp_json := Some (JDict []) |}
  | _ => {| resp_status := 200; resp_json := Some (JDict []) |}
  end.

(** A CRM that answers the lookup 204 without a body. *)
Definition no_content_crm : server := fun history =>
  {| resp_status := 204; resp_json := None |}.

(** A configuration document. *)
Definition sample_config : json :=
  JDict [(lit "webhook", JDict [(lit "port", JNum 8080)]);
         (lit "asterisk", JStr (lit "localhost"))].

(** A CRM whose token answers carry an access token only. *)
Definition half_answer_crm : server := fun history =>
  {| resp_status := 200;
     resp_json := Some (JDict [(lit "access_token", JStr (lit "a2"))]) |}.

(** The application the examples authorise. *)
Definition sample_app : oauth_app :=
  {| subdomain := lit "example"; client_id := lit "id-1";
     client_secret := lit "secret"; redirect_uri := lit "https://pbx/oauth" |}.

(** The entry of a call after a BridgeEnter handled at [t]. *)
Definition answered_at (t : datetime) (c : call) : call :=
  {| channel := channel c; callerid := callerid c;
     exten := exten c; context := context c;
     start_time := start_time c;
     call_direction := call_direction c;
     connected := true;
     answer_time := Some t |}.

(** BridgeEnter events for one id, at the given times. *)
Definition bridge_enters (u : str) (times : list datetime)
    : list (datetime * event) :=
  List.map (fun t => (t, BridgeEnter u)) times.

(** A CRM whose lookup lists two contacts, the first without an id. *)
Definition first_without_id_crm : server := fun history =>
  {| resp_status := 200;
     resp_json :=
       Some (JDict [(lit "_embedded",
                     JDict [(lit "contacts",
                             JList [JDict [(lit "name", JStr (lit "Ann"))];
                                    JDict [(lit "id", JNum 7)]])])]) |}.

(** * Properties *)

(** ** Strings *)

Lemma startswith_spec (p s : str) :
  startswith p s = true <-> exists t, s = p ++ t.
Proof.
  revert s. induction p as [|a p IH]; intros s; simpl.
  - split; [intros _; exists s; reflexivity | reflexivity].
  - destruct s as [|b s]; simpl.
    + split; [discriminate | intros [t Ht]; discriminate].
    + rewrite andb_true_iff, N.eqb_eq, IH. split.
      * intros [-> [t ->]]. exists t. reflexivity.
      * intros [t Ht]. injection Ht as -> ->. split; [reflexivity | exists t; reflexivity].
Qed.

(** [contains] is substring search: the needle occurs somewhere in the
    haystack. *)
Lemma contains_spec (needle hay : str) :
  contains needle hay = true <-> exists a b, hay = a ++ needle ++ b.
Proof.
  induction hay as [|c hay IH].
  - simpl. rewrite orb_false_r, startswith_spec. split.
    + intros [t Ht]. exists [], t. exact Ht.
    + intros [a [b Hab]]. destruct a; [exists b; exact Hab | discriminate].
  - simpl. rewrite orb_true_iff, startswith_spec, IH. split.
    + intros [[t Ht] | [a [b Hab]]].
      * exists [], t. exact Ht.
      * exists (c :: a), b. simpl. rewrite Hab. reflexivity.
    + intros [a [b Hab]]. destruct a as [|x a].
      * left. exists b. exact Hab.
      * right. injection Hab as -> ->. exists a, b. reflexivity.
Qed.

Lemma all_ascii_Forall (s : str) : all_ascii s = true -> Forall is_ascii s.
Proof.
  unfold all_ascii. rewrite forallb_forall, Forall_forall.
  intros Hs c Hc. apply N.ltb_lt, Hs, list_elem_of_In, Hc.
Qed.

Lemma filter_isdigit_ascii `{PyUnicode} (s : str) :
  Forall is_ascii s -> List.filter isdigit s = List.filter ascii_isdigit s.
Proof.
  induction 1 as [|c s Hc _ IH]; simpl; [reflexivity|].
  rewrite (isdigit_ascii c Hc), IH. reflexivity.
Qed.

Lemma filter_isdigit_digits `{PyUnicode} (s : str) :
  Forall (fun d => isdigit d = true) (List.filter isdigit s).
Proof.
  apply Forall_forall. intros d Hd.
  apply list_elem_of_In, filter_In in Hd. apply Hd.
Qed.

(** ** C2: the phone normaliser *)

Lemma extract_phone_refines `{PyUnicode} (c : call) :
  extract_phone c = PhoneNormalizer_spec (callerid c).
Proof.
  unfold extract_phone, PhoneNormalizer_spec.
  destruct (List.filter isdigit (callerid c)) as [|d rest]; [reflexivity|].
  cbn [startswith lit List.map list_ascii_of_string].
  change (N_of_ascii "8") with 56%N. rewrite andb_true_r.
  rewrite (N.eqb_sym 56 d), andb_comm.
  destruct (Nat.eqb (length (d :: rest)) 11 && N.eqb d 56); reflexivity.
Qed.

Lemma extract_phone_Some `{PyUnicode} (c : call) (p : str) :
  extract_phone c = Some p ->
  Forall (fun d => isdigit d = true) p /\
  length p = length (List.filter isdigit (callerid c)) /\
  (10 <= length p)%nat.
Proof.
  rewrite extract_phone_refines. unfold PhoneNormalizer_spec.
  pose proof (filter_isdigit_digits (callerid c)) as Hd.
  destruct (List.filter isdigit (callerid c)) as [|d rest].
  - simpl. discriminate.
  - destruct (Nat.eqb (length (d :: rest)) 11 && N.eqb d 56).
    + destruct (Nat.leb 10 (length (55%N :: rest))) eqn:Hlen; [|discriminate].
      intros [= <-]. split; [|split].
      * inversion Hd; subst. constructor; [|assumption].
        rewrite isdigit_ascii by (unfold is_ascii; lia). reflexivity.
      * reflexivity.
      * apply Nat.leb_le, Hlen.
    + destruct (Nat.leb 10 (length (d :: rest))) eqn:Hlen; [|discriminate].
      intros [= <-]. split; [exact Hd | split; [reflexivity | apply Nat.leb_le, Hlen]].
Qed.

Lemma extract_phone_None `{PyUnicode} (c : call) :
  extract_phone c = None <->
  (length (List.filter isdigit (callerid c)) < 10)%nat.
Proof.
  rewrite extract_phone_refines. unfold PhoneNormalizer_spec.
  destruct (List.filter isdigit (callerid c)) as [|d rest].
  - simpl. split; [lia | reflexivity].
  - destruct (Nat.eqb (length (d :: rest)) 11 && N.eqb d 56).
    + destruct (Nat.leb 10 (length (55%N :: rest))) eqn:Hlen.
      * apply Nat.leb_le in Hlen. simpl in *. split; [discriminate | lia].
      * apply Nat.leb_gt in Hlen. simpl in *. split; [lia | reflexivity].
    + destruct (Nat.leb 10 (length (d :: rest))) eqn:Hlen.
      * apply Nat.leb_le in Hlen. split; [discriminate | lia].
      * apply Nat.leb_gt in Hlen. split; [lia | reflexivity].
Qed.

Lemma extract_phone_ascii `{PyUnicode} (cid : str) :
  all_ascii cid = true ->
  extract_phone (call_with_callerid cid)
  = @extract_phone ascii_unicode (call_with_callerid cid).
Proof.
  intros Ha. unfold extract_phone. simpl callerid.
  rewrite (filter_isdigit_ascii cid (all_ascii_Forall cid Ha)). reflexivity.
Qed.

(** C2.  For every caller id, [extract_phone] is the normaliser of the
    specification: it keeps exactly the digits, turns the leading 8 of an
    11-digit string into 7, and returns the result if and only if it has
    at least 10 digits, [None] otherwise; "8-916-123-45-67" gives
    "79161234567" and "123" gives [None]. *)
Theorem C2_extract_phone `{PyUnicode} :
  (forall c, extract_phone c = PhoneNormalizer_spec (callerid c)) /\
  (forall c p, extract_phone c = Some p ->
     Forall (fun d => isdigit d = true) p /\
     length p = length (List.filter isdigit (callerid c)) /\
     (10 <= length p)%nat) /\
  (forall c, extract_phone c = None <->
     (length (List.filter isdigit (callerid c)) < 10)%nat) /\
  extract_phone (call_with_callerid (lit "8-916-123-45-67"))
    = Some (lit "79161234567") /\
  extract_phone (call_with_callerid (lit "123")) = None.
Proof.
  split; [exact extract_phone_refines|].
  split; [exact extract_phone_Some|].
  split; [exact extract_phone_None|].
  split; (rewrite extract_phone_ascii; [|reflexivity]); reflexivity.
Qed.

Lemma C2_witness :
  extract_phone (call_with_callerid (lit "8-916-123-45-67"))
    = Some (lit "79161234567") /\
  (10 <= length (lit "79161234567"))%nat.
Proof.
  split; [reflexivity|].
  exact (proj2 (proj2 (proj1 (proj2 C2_extract_phone)
                         (call_with_callerid (lit "8-916-123-45-67"))
                         (lit "79161234567") eq_refl))).
Defined.

(** ** C3: direction classification *)

Lemma lower_lit `{PyUnicode} (s : str) :
  all_ascii s = true -> lower s = List.map ascii_lower s.
Proof. intros Hs. apply lower_ascii, all_ascii_Forall, Hs. Qed.

Lemma lower_empty `{PyUnicode} : lower [] = [].
Proof. apply (lower_lit []). reflexivity. Qed.

(** [integration.py] classifies as [integration_debug.py] does when the
    context is left at its default, the empty string. *)
Lemma detect_direction_default_context `{PyUnicode} (channel : str) :
  Integration.detect_direction channel
  = IntegrationDebug.detect_direction channel [].
Proof.
  unfold Integration.detect_direction, IntegrationDebug.detect_direction.
  rewrite lower_empty. cbn [contains startswith lit List.map list_ascii_of_string orb].
  destruct (contains _ (lower channel) || contains _ (lower channel)); [reflexivity|].
  rewrite orb_false_r.
  destruct (contains _ (lower channel)); reflexivity.
Qed.

(** The claim as worded fails on both files: a channel name that carries
    the local-extension marker is not classified internal by
    [integration_debug.py], and [integration.py] does not look at the
    context at all. *)
Lemma C3_counterexample :
  IntegrationDebug.detect_direction
    (lit "Local/101@ext-local-0001;1") (lit "default")
  <> DirectionClassification_spec
       (lit "Local/101@ext-local-0001;1") (lit "default")
  /\ IntegrationDebug.detect_direction
       (lit "Local/101@ext-local-0001;1") (lit "default") = unknown
  /\ call_direction
       <$> (fst (Integration.handle 0
                   (Newchannel (lit "1.1") (lit "SIP/101-0001") (lit "101")
                      (lit "101") (lit "ext-local")) ∅) !! lit "1.1")
     = Some unknown.
Proof. split; [discriminate | split; reflexivity]. Qed.

(** C3 (amended).  In [integration_debug.py] the classification is a
    case-insensitive substring match in this priority order: "from-trunk"
    or "from-pstn" in the channel name or the context gives inbound; else
    "from-internal" in the channel name or the context gives outbound;
    else "ext-local" in the context (the channel name is not searched for
    it) gives internal; else unknown.  [integration.py] is the same
    function with the context fixed to the empty string.  Channel
    "SIP/from-trunk-0001" is inbound, channel "SIP/from-internal-0002"
    outbound, context "ext-local" internal. *)
Theorem C3_detect_direction `{PyUnicode} :
  (forall channel context,
     let inb := has_marker (lit "from-trunk") channel context
                || has_marker (lit "from-pstn") channel context in
     let outb := has_marker (lit "from-internal") channel context in
     let loc := contains (lit "ext-local") (lower context) in
     (IntegrationDebug.detect_direction channel context = inbound
        <-> inb = true) /\
     (IntegrationDebug.detect_direction channel context = outbound
        <-> inb = false /\ outb = true) /\
     (IntegrationDebug.detect_direction channel context = internal
        <-> inb = false /\ outb = false /\ loc = true) /\
     (IntegrationDebug.detect_direction channel context = unknown
        <-> inb = false /\ outb = false /\ loc = false)) /\
  (forall channel,
     Integration.detect_direction channel
     = IntegrationDebug.detect_direction channel []) /\
  (forall context,
     IntegrationDebug.detect_direction (lit "SIP/from-trunk-0001") context
     = inbound) /\
  IntegrationDebug.detect_direction (lit "SIP/from-internal-0002") []
    = outbound /\
  IntegrationDebug.detect_direction (lit "SIP/101-0001") (lit "ext-local")
    = internal /\
  Integration.detect_direction (lit "SIP/from-trunk-0001") = inbound /\
  Integration.detect_direction (lit "SIP/from-internal-0002") = outbound.
Proof.
  split.
  { intros channel context. unfold IntegrationDebug.detect_direction, has_marker.
    cbv zeta.
    destruct (contains (lit "from-trunk") (lower channel)),
             (contains (lit "from-pstn") (lower channel)),
             (contains (lit "from-trunk") (lower context)),
             (contains (lit "from-pstn") (lower context)),
             (contains (lit "from-internal") (lower channel)),
             (contains (lit "from-internal") (lower context)),
             (contains (lit "ext-local") (lower context));
      simpl; repeat split; intros; try discriminate;
      try reflexivity; try tauto;
      repeat match goal with H : _ /\ _ |- _ => destruct H end; discriminate. }
  split; [exact detect_direction_default_context|].
  split.
  { intros context. unfold IntegrationDebug.detect_direction.
    rewrite (lower_lit (lit "SIP/from-trunk-0001")) by reflexivity.
    reflexivity. }
  rewrite !detect_direction_default_context.
  unfold IntegrationDebug.detect_direction.
  rewrite lower_empty.
  rewrite (lower_lit (lit "SIP/from-internal-0002")) by reflexivity.
  rewrite (lower_lit (lit "SIP/101-0001")) by reflexivity.
  rewrite (lower_lit (lit "ext-local")) by reflexivity.
  rewrite (lower_lit (lit "SIP/from-trunk-0001")) by reflexivity.
  repeat split; reflexivity.
Qed.

Lemma C3_witness :
  IntegrationDebug.detect_direction (lit "SIP/101-0001") (lit "EXT-Local")
    = internal.
Proof.
  destruct (proj1 C3_detect_direction (lit "SIP/101-0001") (lit "EXT-Local"))
    as (_ & _ & [_ Hint] & _).
  apply Hint. repeat split.
Defined.

(** ** The session table *)

Lemma run_app (h : handler) (a b : list (datetime * event))
    (tbl : gmap str call) :
  run h (a ++ b) tbl
  = (fst (run h b (fst (run h a tbl))),
     snd (run h a tbl) ++ snd (run h b (fst (run h a tbl)))).
Proof.
  revert tbl. induction a as [|[now ev] a IH]; intros tbl; simpl.
  - destruct (run h b tbl); reflexivity.
  - destruct (h now ev tbl) as [t1 o1]. rewrite IH.
    destruct (run h a t1) as [t2 o2]. simpl.
    rewrite app_assoc. reflexivity.
Qed.

Lemma run_single (h : handler) (now : datetime) (ev : event)
    (tbl : gmap str call) :
  run h [(now, ev)] tbl = h now ev tbl.
Proof.
  simpl. destruct (h now ev tbl) as [t o]. rewrite app_nil_r. reflexivity.
Qed.

Section Engine.
Context `{PyUnicode}.

(** What a hangup does, in either file: nothing for an unknown id;
    otherwise the entry goes and at most one task is created. *)
Lemma hangup_cases (f : source_file) (now : datetime) (uid : str)
    (cause : option str) (tbl : gmap str call) :
  (tbl !! uid = None /\ handle_of f now (Hangup uid cause) tbl = (tbl, []))
  \/ (exists c, tbl !! uid = Some c /\
        exists out, handle_of f now (Hangup uid cause) tbl = (delete uid tbl, out)
                    /\ (length out <= 1)%nat).
Proof.
  destruct f as [|config]; simpl;
    unfold Integration.on_hangup, IntegrationDebug.on_hangup;
    (destruct (tbl !! uid) as [c|] eqn:Hc; [right; exists c; split; [reflexivity|] | left; split; reflexivity]);
    destruct (duration_status c now _) as [d s];
    match goal with |- context [if ?b then _ else _] => destruct b end;
    eexists; split; try reflexivity; simpl; lia.
Qed.

Lemma not_hangup_silent (f : source_file) (now : datetime) (ev : event)
    (tbl : gmap str call) :
  is_hangup ev = false -> snd (handle_of f now ev tbl) = [].
Proof. destruct f, ev; simpl; intros; try reflexivity; discriminate. Qed.

Lemma handle_output_bound (f : source_file) (now : datetime) (ev : event)
    (tbl : gmap str call) :
  (length (snd (handle_of f now ev tbl)) <= if is_hangup ev then 1 else 0)%nat.
Proof.
  destruct (is_hangup ev) eqn:Hev.
  - destruct ev; try discriminate.
    destruct (hangup_cases f now uniqueid cause_txt tbl)
      as [[_ ->] | [c [_ [out [-> Hout]]]]]; simpl; lia.
  - rewrite not_hangup_silent by assumption. simpl. lia.
Qed.

Lemma run_output_bound (f : source_file) (evs : list (datetime * event))
    (tbl : gmap str call) :
  (length (snd (run (handle_of f) evs tbl)) <= count_hangups evs)%nat.
Proof.
  revert tbl. induction evs as [|[now ev] evs IH]; intros tbl; simpl; [lia|].
  pose proof (handle_output_bound f now ev tbl) as Hb.
  destruct (handle_of f now ev tbl) as [t1 o1]. specialize (IH t1).
  destruct (run (handle_of f) evs t1) as [t2 o2]. simpl in *.
  rewrite length_app. unfold count_hangups in *. simpl.
  destruct (is_hangup ev); simpl; lia.
Qed.

Lemma hangup_retires (f : source_file) (now : datetime) (uid : str)
    (cause : option str) (tbl : gmap str call) :
  fst (handle_of f now (Hangup uid cause) tbl) !! uid = None.
Proof.
  destruct (hangup_cases f now uid cause tbl)
    as [[Hn ->] | [c [_ [out [-> _]]]]]; simpl.
  - exact Hn.
  - apply lookup_delete_eq.
Qed.

Lemma hangup_other (f : source_file) (now : datetime) (uid uid' : str)
    (cause : option str) (tbl : gmap str call) :
  uid <> uid' ->
  fst (handle_of f now (Hangup uid cause) tbl) !! uid' = tbl !! uid'.
Proof.
  intros Hne.
  destruct (hangup_cases f now uid cause tbl)
    as [[Hn ->] | [c [_ [out [-> _]]]]]; simpl.
  - reflexivity.
  - apply lookup_delete_ne, Hne.
Qed.

(** An id nobody has created stays without an entry. *)
Lemma absent_stays_absent (f : source_file) (now : datetime) (ev : event)
    (uid : str) (tbl : gmap str call) :
  creates uid ev = false ->
  tbl !! uid = None ->
  fst (handle_of f now ev tbl) !! uid = None.
Proof.
  intros Hev Hn. destruct ev as [u ch cid ex ctx | u | u cause].
  - simpl in Hev. apply bool_decide_eq_false in Hev.
    destruct f; simpl;
      unfold Integration.on_new_channel, IntegrationDebug.on_new_channel;
      rewrite lookup_insert_ne by exact Hev; exact Hn.
  - assert (Hb : on_bridge_enter now u tbl !! uid = None).
    { unfold on_bridge_enter. destruct (tbl !! u) as [c|] eqn:Hu; [|exact Hn].
      destruct (decide (u = uid)) as [->|Hne]; [congruence|].
      rewrite lookup_insert_ne by exact Hne. exact Hn. }
    destruct f; exact Hb.
  - destruct (decide (u = uid)) as [->|Hne].
    + apply hangup_retires.
    + rewrite hangup_other by exact Hne. exact Hn.
Qed.

Lemma run_absent_stays_absent (f : source_file)
    (evs : list (datetime * event)) (uid : str) (tbl : gmap str call) :
  forallb (fun e => negb (creates uid (snd e))) evs = true ->
  tbl !! uid = None ->
  fst (run (handle_of f) evs tbl) !! uid = None.
Proof.
  revert tbl. induction evs as [|[now ev] evs IH]; intros tbl Hevs Hn;
    simpl in *; [exact Hn|].
  apply andb_true_iff in Hevs as [Hev Hevs]. apply negb_true_iff in Hev.
  pose proof (absent_stays_absent f now ev uid tbl Hev Hn) as H1.
  destruct (handle_of f now ev tbl) as [t1 o1]. simpl in H1.
  specialize (IH t1 Hevs H1).
  destruct (run (handle_of f) evs t1) as [t2 o2]. exact IH.
Qed.

End Engine.

(** ** C1: at most one fact per session, and the session is retired *)

(** C1.  In either file: a sequence of events without a hangup followed by
    a hangup for [uid] (so NewChannel, BridgeEnter?, Hangup in particular)
    creates at most one [process_call] task and leaves no entry for [uid]
    in [active_channels]; over any sequence there are no more tasks than
    hangups; and a hangup for an id that has no entry, as is the case when
    no NewChannel for it came before, creates no task and leaves the table
    as it was. *)
Theorem C1_single_fact_per_session `{PyUnicode} (f : source_file) :
  (forall pre now uid cause tbl,
     count_hangups pre = 0%nat ->
     (length (snd (run (handle_of f) (pre ++ [(now, Hangup uid cause)]) tbl))
        <= 1)%nat /\
     fst (run (handle_of f) (pre ++ [(now, Hangup uid cause)]) tbl) !! uid
       = None) /\
  (forall evs tbl,
     (length (snd (run (handle_of f) evs tbl)) <= count_hangups evs)%nat) /\
  (forall now uid cause tbl,
     tbl !! uid = None ->
     handle_of f now (Hangup uid cause) tbl = (tbl, [])) /\
  (forall pre now uid cause tbl,
     tbl !! uid = None ->
     forallb (fun e => negb (creates uid (snd e))) pre = true ->
     run (handle_of f) (pre ++ [(now, Hangup uid cause)]) tbl
     = run (handle_of f) pre tbl).
Proof.
  assert (Hnoop : forall now uid cause tbl,
            tbl !! uid = None ->
            handle_of f now (Hangup uid cause) tbl = (tbl, [])).
  { intros now uid cause tbl Hn.
    destruct (hangup_cases f now uid cause tbl)
      as [[_ ->] | [c [Hc _]]]; [reflexivity | congruence]. }
  split; [|split; [|split; [exact Hnoop|]]]; cycle 2.
  { intros pre now uid cause tbl Hn Hpre.
    rewrite run_app, run_single.
    rewrite (Hnoop now uid cause _ (run_absent_stays_absent f pre uid tbl Hpre Hn)).
    simpl. rewrite app_nil_r.
    destruct (run (handle_of f) pre tbl); reflexivity. }
  - intros pre now uid cause tbl Hpre. split.
    + pose proof (run_output_bound f (pre ++ [(now, Hangup uid cause)]) tbl) as Hb.
      unfold count_hangups in *. rewrite List.filter_app, length_app in Hb.
      simpl in Hb. lia.
    + rewrite run_app. cbn [fst]. rewrite run_single. apply hangup_retires.
  - apply run_output_bound.
Qed.

Lemma C1_witness :
  count_hangups answered_call = 0%nat /\
  ((length (snd (run (handle_of integration_py)
                   (answered_call ++ [(9000000%Z, Hangup sample_uid None)]) ∅))
      <= 1)%nat /\
   fst (run (handle_of integration_py)
          (answered_call ++ [(9000000%Z, Hangup sample_uid None)]) ∅)
     !! sample_uid = None) /\
  handle_of integration_py 9000000 (Hangup sample_uid None) ∅ = (∅, []).
Proof.
  split; [reflexivity|]. split.
  - exact (proj1 (C1_single_fact_per_session integration_py)
             answered_call 9000000 sample_uid None ∅ eq_refl).
  - exact (proj1 (proj2 (proj2 (C1_single_fact_per_session integration_py)))
             9000000 sample_uid None ∅ (lookup_empty sample_uid)).
Defined.

(** ** C4: duration and status of the finished call *)

Lemma timedelta_seconds_within_a_day (later earlier : datetime) :
  0 <= later - earlier < 86400000000 ->
  timedelta_seconds later earlier = (later - earlier) / 1000000.
Proof.
  intros Hr. unfold timedelta_seconds. rewrite Z.mod_small by lia. reflexivity.
Qed.

Lemma timedelta_seconds_range (later earlier : datetime) :
  0 <= timedelta_seconds later earlier < 86400.
Proof.
  unfold timedelta_seconds.
  pose proof (Z.mod_pos_bound (later - earlier) 86400000000 ltac:(lia)) as Hm.
  split.
  - apply Z.div_pos; lia.
  - apply Z.div_lt_upper_bound; lia.
Qed.

Section Duration.
Context `{PyUnicode}.

(** The task a hangup creates carries the duration and status that
    [duration_status] computes from the entry. *)
Lemma hangup_task (f : source_file) (now : datetime) (uid : str)
    (cause : option str) (tbl : gmap str call) (cd : call_data) :
  In cd (snd (handle_of f now (Hangup uid cause) tbl)) ->
  exists c,
    tbl !! uid = Some c /\
    (duration cd, status cd)
      = duration_status c now (default (lit "UNKNOWN") cause) /\
    cd_direction cd = call_direction c /\
    cd_uniqueid cd = uid /\
    timestamp cd = start_time c.
Proof.
  destruct f as [|config]; simpl;
    unfold Integration.on_hangup, IntegrationDebug.on_hangup;
    (destruct (tbl !! uid) as [c|] eqn:Hc; [|intros []]);
    destruct (duration_status c now _) as [d s] eqn:Hds;
    match goal with |- context [if ?b then _ else _] => destruct b end;
    simpl; intros Hin; try contradiction;
    destruct Hin as [<- | []]; exists c; simpl; auto.
Qed.

(** Never answered: duration 0, and the status is the cause text of the
    hangup, "UNKNOWN" when the event has none. *)
Lemma unanswered_duration_status (c : call) (end_time : datetime)
    (cause_txt : str) :
  answer_time c = None ->
  duration_status c end_time cause_txt = (0, cause_txt).
Proof. unfold duration_status. intros ->. reflexivity. Qed.

(** Answered: status "ANSWERED", and the duration is the [seconds] field
    of the time difference; that is the elapsed whole seconds as long as
    the hangup comes less than a day after the answer. *)
Lemma answered_duration_status (c : call) (end_time t : datetime)
    (cause_txt : str) :
  answer_time c = Some t ->
  duration_status c end_time cause_txt
    = (timedelta_seconds end_time t, lit "ANSWERED") /\
  (0 <= end_time - t < 86400000000 ->
   fst (duration_status c end_time cause_txt) = (end_time - t) / 1000000).
Proof.
  unfold duration_status. intros ->. split; [reflexivity|].
  intros Hr. simpl. apply timedelta_seconds_within_a_day, Hr.
Qed.

End Duration.

(** C4 at the failing input, in either file.  The duration of an answered
    call is the [seconds] field of the time difference and so never reaches
    a day: a call answered at 5 s and hung up one day and 5 s later is
    reported with a duration of 5 seconds, where hangup time minus answer
    time is 86405 seconds.  A call that is never answered is reported with
    duration 0 and the cause text of the hangup as its status. *)
Theorem C4_duration_drops_whole_days :
  (forall (U : PyUnicode) f now uid cause tbl cd,
     In cd (snd (handle_of f now (Hangup uid cause) tbl)) ->
     exists c,
       tbl !! uid = Some c /\
       match answer_time c with
       | Some t =>
           duration cd = timedelta_seconds now t /\
           0 <= duration cd < 86400 /\
           status cd = lit "ANSWERED"
       | None =>
           duration cd = 0 /\
           status cd = default (lit "UNKNOWN") cause
       end) /\
  (forall f,
     List.map (fun cd => (duration cd, is_answered (status cd)))
       (snd (run (handle_of f) day_long_call ∅)) = [(5, true)]) /\
  ((5000000 + 86405000000) - 5000000) / 1000000 = 86405 /\
  (forall f,
     List.map (fun cd => (duration cd, is_answered (status cd)))
       (snd (run (handle_of f) unanswered_call ∅)) = [(0, false)]).
Proof.
  split.
  { intros U f now uid cause tbl cd Hin.
    destruct (hangup_task f now uid cause tbl cd Hin) as (c & Hc & Hds & _).
    exists c. split; [exact Hc|].
    unfold duration_status in Hds.
    destruct (answer_time c) as [t|]; injection Hds as Hd Hs.
    - split; [exact Hd|]. split; [|exact Hs].
      rewrite Hd. apply timedelta_seconds_range.
    - split; assumption. }
  split; [|split]; [intros [|config] | reflexivity | intros [|config]].
  - reflexivity.
  - vm_compute. destruct (process_internal_calls config); reflexivity.
  - reflexivity.
  - vm_compute. destruct (process_internal_calls config); reflexivity.
Qed.

Lemma C4_witness :
  In sample_fact
    (snd (handle_of integration_py 12000000
            (Hangup sample_uid None)
            (fst (run (handle_of integration_py) answered_call ∅)))) /\
  exists c,
    fst (run (handle_of integration_py) answered_call ∅) !! sample_uid
      = Some c /\
    match answer_time c with
    | Some t =>
        duration sample_fact = timedelta_seconds 12000000 t /\
        0 <= duration sample_fact < 86400 /\
        status sample_fact = lit "ANSWERED"
    | None =>
        duration sample_fact = 0 /\
        status sample_fact = default (lit "UNKNOWN") None
    end.
Proof.
  assert (Hin : In sample_fact
            (snd (handle_of integration_py 12000000
                    (Hangup sample_uid None)
                    (fst (run (handle_of integration_py) answered_call ∅))))).
  { left. reflexivity. }
  split; [exact Hin|].
  exact (proj1 C4_duration_drops_whole_days ascii_unicode integration_py
           12000000 sample_uid None _ sample_fact Hin).
Defined.

(** ** C8: a repeated BridgeEnter *)

(** The claim as worded fails: a second BridgeEnter, at 9 s, for the call
    answered at 5 s changes the table, moving [answer_time] to 9 s. *)
Lemma C8_counterexample :
  on_bridge_enter 9000000 sample_uid
    (fst (run Integration.handle answered_call ∅))
  <> fst (run Integration.handle answered_call ∅)
  /\ answer_time
       <$> (fst (run Integration.handle answered_call ∅) !! sample_uid)
     = Some (Some 5000000)
  /\ answer_time
       <$> (on_bridge_enter 9000000 sample_uid
              (fst (run Integration.handle answered_call ∅)) !! sample_uid)
     = Some (Some 9000000).
Proof.
  split; [|split; reflexivity].
  intros Heq.
  apply (f_equal (fun m => answer_time <$> (m !! sample_uid))) in Heq.
  vm_compute in Heq. discriminate.
Qed.

(** C8 (amended).  For a session that is already bridged, a further
    BridgeEnter keeps [connected] and every other field and overwrites
    [answer_time] with the time of the later event, so the table is
    unchanged only if the two times coincide; sessions under other ids are
    untouched, and without a session the event does nothing. *)
Theorem C8_bridge_enter_last_writer_wins (now t : datetime) (uid : str)
    (tbl : gmap str call) (c : call) :
  tbl !! uid = Some c ->
  connected c = true ->
  answer_time c = Some t ->
  on_bridge_enter now uid tbl !! uid
    = Some {| channel := channel c; callerid := callerid c;
              exten := exten c; context := context c;
              start_time := start_time c;
              call_direction := call_direction c;
              connected := true; answer_time := Some now |} /\
  (forall uid', uid' <> uid -> on_bridge_enter now uid tbl !! uid' = tbl !! uid') /\
  (on_bridge_enter now uid tbl = tbl <-> now = t) /\
  (forall tbl', tbl' !! uid = None -> on_bridge_enter now uid tbl' = tbl').
Proof.
  intros Hc Hconn Hans. unfold on_bridge_enter. rewrite Hc.
  split; [apply lookup_insert_eq|].
  split; [intros uid' Hne; apply lookup_insert_ne; congruence|].
  split.
  - split.
    + intros Heq. apply (f_equal (fun m => m !! uid)) in Heq.
      rewrite lookup_insert_eq, Hc in Heq. injection Heq as Heq.
      rewrite <- Heq in Hans. simpl in Hans. congruence.
    + intros ->. apply insert_id. rewrite Hc. f_equal.
      destruct c; simpl in *. subst. reflexivity.
  - intros tbl' Hn. rewrite Hn. reflexivity.
Qed.

Lemma C8_witness :
  on_bridge_enter 9000000 sample_uid
    (fst (run Integration.handle answered_call ∅)) !! sample_uid
  = Some {| channel := lit "SIP/from-trunk-0001";
            callerid := lit "8-916-123-45-67";
            exten := None; context := None; start_time := 0;
            call_direction := inbound;
            connected := true; answer_time := Some 9000000 |}.
Proof.
  exact (proj1 (C8_bridge_enter_last_writer_wins 9000000 5000000 sample_uid
                  (fst (run Integration.handle answered_call ∅))
                  {| channel := lit "SIP/from-trunk-0001";
                     callerid := lit "8-916-123-45-67";
                     exten := None; context := None; start_time := 0;
                     call_direction := inbound;
                     connected := true; answer_time := Some 5000000 |}
                  eq_refl eq_refl eq_refl)).
Defined.

(** ** C6: the token refresh *)

Section Refresh.
Variable crm : server.

(** [refresh_tokens] is its two halves run back to back. *)
Lemma refresh_tokens_two_steps (st : amocrm) :
  refresh_tokens crm st
  = (resp <- refresh_send crm ;; refresh_receive resp) st.
Proof. reflexivity. Qed.

Lemma refresh_send_sent (st : amocrm) :
  refresh_send crm st
  = (Ok (crm (TokenRequest (lit "refresh_token") (refresh_token st) :: sent st)),
     {| access_token := access_token st; refresh_token := refresh_token st;
        token_file := token_file st;
        sent := TokenRequest (lit "refresh_token") (refresh_token st) :: sent st |}).
Proof. reflexivity. Qed.

Lemma refresh_receive_sent (resp : response) (st : amocrm) :
  sent (snd (refresh_receive resp st)) = sent st.
Proof.
  unfold refresh_receive, bind, lift, json_of, set_access_token,
    set_refresh_token, save_tokens.
  destruct (resp_json resp) as [body|]; simpl; [|reflexivity].
  destruct (getitem body (lit "access_token")); simpl; [|reflexivity].
  destruct (getitem body (lit "refresh_token")); reflexivity.
Qed.

Lemma refresh_tokens_sent (st : amocrm) :
  sent (snd (refresh_tokens crm st))
  = TokenRequest (lit "refresh_token") (refresh_token st) :: sent st.
Proof.
  rewrite refresh_tokens_two_steps. unfold bind. rewrite refresh_send_sent.
  rewrite refresh_receive_sent. reflexivity.
Qed.

End Refresh.

(** The claim as worded fails: a client without a refresh token still
    sends the token request (carrying [null]), and only the answer makes
    the refresh fail, with a [KeyError]. *)
Lemma C6_counterexample :
  refresh_token unauthenticated = JNull /\
  sent (snd (refresh_tokens expired_crm unauthenticated))
    = [TokenRequest (lit "refresh_token") JNull] /\
  fst (refresh_tokens expired_crm unauthenticated)
    = Raise (KeyError (lit "access_token")).
Proof. repeat split. Qed.

(** C6 (amended).  [refresh_tokens] always sends exactly one token
    request, carrying the stored refresh token, also when that token is
    absent.  It fails, by raising the parser's or the dict's own
    exception, exactly when the answer is not JSON or lacks
    "access_token" or "refresh_token"; the token file and the stored
    refresh token are then as before.  Otherwise it succeeds, and both
    tokens are the answer's and the token file holds that pair. *)
Theorem C6_refresh_tokens (crm : server) (st : amocrm) :
  let rq := TokenRequest (lit "refresh_token") (refresh_token st) in
  let st' := snd (refresh_tokens crm st) in
  sent st' = rq :: sent st /\
  match resp_json (crm (rq :: sent st)) with
  | None =>
      fst (refresh_tokens crm st) = Raise ContentTypeError /\
      access_token st' = access_token st /\
      refresh_token st' = refresh_token st /\
      token_file st' = token_file st
  | Some body =>
      match getitem body (lit "access_token"),
            getitem body (lit "refresh_token") with
      | Ok a, Ok r =>
          fst (refresh_tokens crm st) = Ok tt /\
          access_token st' = a /\
          refresh_token st' = r /\
          token_file st' = Some (a, r)
      | Ok a, Raise e =>
          fst (refresh_tokens crm st) = Raise e /\
          refresh_token st' = refresh_token st /\
          token_file st' = token_file st
      | Raise e, _ =>
          fst (refresh_tokens crm st) = Raise e /\
          access_token st' = access_token st /\
          refresh_token st' = refresh_token st /\
          token_file st' = token_file st
      end
  end.
Proof.
  cbv zeta. split; [apply refresh_tokens_sent|].
  unfold refresh_tokens, bind, get_self, http, lift, json_of,
    set_access_token, set_refresh_token, save_tokens. simpl.
  destruct (resp_json _) as [body|]; simpl; [|repeat split].
  destruct (getitem body (lit "access_token")) as [a|e]; simpl; [|repeat split].
  destruct (getitem body (lit "refresh_token")) as [r|e]; simpl; repeat split.
Qed.

(** ** C5: the request with its single retry *)

Section Request.
Variable crm : server.

(** The recursion equation of [api_request]. *)
Lemma api_request_unfold (method : str) (ep : endpoint) (data : json)
    (retry : bool) (st : amocrm) :
  api_request crm method ep data retry st
  = api_request_body crm (api_request crm method ep data false)
      method ep data retry st.
Proof.
  unfold api_request, api_request_body, bind, get_self, http. simpl.
  destruct retry; rewrite ?andb_false_r, ?andb_true_r; [|reflexivity].
  destruct (Z.eqb _ 401); [|reflexivity].
  destruct (refresh_tokens crm _) as [[[]|e] st2]; [|reflexivity].
  rewrite !andb_false_r. reflexivity.
Qed.

(** Without retry: one request, and any status from 400 on gives
    [None]. *)
Lemma api_request_no_retry (method : str) (ep : endpoint) (data : json)
    (st : amocrm) :
  let rq := ApiRequest method ep (access_token st) data in
  api_request crm method ep data false st
  = (if Z.leb 400 (resp_status (crm (rq :: sent st))) then Ok JNull
     else json_of (crm (rq :: sent st)),
     after_request rq st).
Proof.
  unfold api_request, api_request_body, bind, get_self, http, ret, lift.
  simpl. rewrite andb_false_r.
  destruct (Z.leb 400 _); reflexivity.
Qed.

(** With retry, first status not 401: as without retry. *)
Lemma api_request_first_not_401 (method : str) (ep : endpoint) (data : json)
    (st : amocrm) :
  let rq := ApiRequest method ep (access_token st) data in
  resp_status (crm (rq :: sent st)) <> 401 ->
  api_request crm method ep data true st
  = api_request crm method ep data false st.
Proof.
  intros rq Hs. rewrite !api_request_unfold.
  unfold api_request_body, bind, get_self, http. simpl.
  fold rq. destruct (Z.eqb_spec (resp_status (crm (rq :: sent st))) 401);
    [contradiction | reflexivity].
Qed.

(** With retry, first status 401: one refresh, then, if it succeeded, the
    request again without retry. *)
Lemma api_request_first_401 (method : str) (ep : endpoint) (data : json)
    (st : amocrm) :
  let rq := ApiRequest method ep (access_token st) data in
  resp_status (crm (rq :: sent st)) = 401 ->
  api_request crm method ep data true st
  = match refresh_tokens crm (after_request rq st) with
    | (Ok _, st2) => api_request crm method ep data false st2
    | (Raise e, st2) => (Raise e, st2)
    end.
Proof.
  intros rq Hs. rewrite api_request_unfold.
  unfold api_request_body at 1, bind at 1 2, get_self, http. simpl.
  fold rq. rewrite Hs. simpl. unfold bind, after_request.
  destruct (refresh_tokens crm _) as [[[]|e] st2]; reflexivity.
Qed.

End Request.

(** The claim as worded fails: when the retried request is answered 401
    as well, the caller gets [None], the very value it gets for a 500;
    nothing is raised. *)
Lemma C5_counterexample :
  fst (api_request always_401_crm (lit "GET") (contacts_query (lit "79161234567"))
         JNull true authenticated) = Ok JNull /\
  fst (api_request always_500_crm (lit "GET") (contacts_query (lit "79161234567"))
         JNull true authenticated) = Ok JNull /\
  List.map resp_status
    [always_401_crm
       (sent (snd (api_request always_401_crm (lit "GET")
                     (contacts_query (lit "79161234567")) JNull true
                     authenticated)))]
  = [401].
Proof. repeat split. Qed.

(** C5 (amended).  A call of [api_request] with [retry=True]:
    - sends at most two API requests and at most one token request;
    - when the first answer is not 401, sends that one request only;
    - when the first answer is 401, runs [refresh_tokens] once; if the
      refresh succeeds, the same method, endpoint and data are sent once
      more, with the refreshed access token, and that is all; if the
      refresh raises, its exception reaches the caller and nothing more is
      sent;
    - returns [None] for a final answer with a status from 400 on, a
      second 401 included: no distinct error tells the caller so. *)
Theorem C5_api_request (crm : server) (method : str) (ep : endpoint)
    (data : json) (st : amocrm) :
  let rq1 := ApiRequest method ep (access_token st) data in
  let st1 := after_request rq1 st in
  let out := api_request crm method ep data true st in
  (count_api_requests (sent (snd out))
     <= count_api_requests (sent st) + 2)%nat /\
  (count_token_requests (sent (snd out))
     <= count_token_requests (sent st) + 1)%nat /\
  (resp_status (crm (rq1 :: sent st)) <> 401 ->
     sent (snd out) = rq1 :: sent st /\
     (400 <= resp_status (crm (rq1 :: sent st)) -> fst out = Ok JNull)) /\
  (resp_status (crm (rq1 :: sent st)) = 401 ->
     (forall st2,
        refresh_tokens crm st1 = (Ok tt, st2) ->
        let rq2 := ApiRequest method ep (access_token st2) data in
        sent (snd out)
          = rq2 :: TokenRequest (lit "refresh_token") (refresh_token st)
                :: rq1 :: sent st /\
        (400 <= resp_status (crm (rq2 :: sent st2)) -> fst out = Ok JNull)) /\
     (forall e st2,
        refresh_tokens crm st1 = (Raise e, st2) ->
        out = (Raise e, st2) /\
        sent st2
          = TokenRequest (lit "refresh_token") (refresh_token st)
              :: rq1 :: sent st)).
Proof.
  cbv zeta.
  set (rq1 := ApiRequest method ep (access_token st) data).
  assert (Hnot : resp_status (crm (rq1 :: sent st)) <> 401 ->
            api_request crm method ep data true st
            = (if Z.leb 400 (resp_status (crm (rq1 :: sent st))) then Ok JNull
               else json_of (crm (rq1 :: sent st)), after_request rq1 st)).
  { intros Hs. rewrite (api_request_first_not_401 crm method ep data st Hs).
    apply api_request_no_retry. }
  assert (H401 : resp_status (crm (rq1 :: sent st)) = 401 ->
            api_request crm method ep data true st
            = match refresh_tokens crm (after_request rq1 st) with
              | (Ok _, st2) => api_request crm method ep data false st2
              | (Raise e, st2) => (Raise e, st2)
              end).
  { apply api_request_first_401. }
  pose proof (refresh_tokens_sent crm (after_request rq1 st)) as Hsent.
  simpl in Hsent.
  destruct (Z.eq_dec (resp_status (crm (rq1 :: sent st))) 401) as [Hs|Hs].
  - rewrite (H401 Hs).
    destruct (refresh_tokens crm (after_request rq1 st)) as [[[]|e] st2] eqn:Hr;
      simpl in Hsent.
    + rewrite api_request_no_retry. simpl.
      split; [rewrite Hsent; unfold count_api_requests; simpl; lia|].
      split; [rewrite Hsent; unfold count_token_requests; simpl; lia|].
      split; [intros; contradiction|].
      intros _. split.
      * intros st2' [= <-]. split; [rewrite Hsent; reflexivity|].
        intros H400. apply Z.leb_le in H400. rewrite H400. reflexivity.
      * intros e st2' [=].
    + simpl. rewrite Hsent.
      unfold count_api_requests, count_token_requests. simpl.
      split; [lia|]. split; [lia|]. split; [intros; contradiction|].
      intros _. split.
      * intros st2' [=].
      * intros e' st2' [= <- <-]. split; [reflexivity | exact Hsent].
  - rewrite (Hnot Hs). simpl.
    unfold count_api_requests, count_token_requests. simpl.
    split; [lia|]. split; [lia|]. split.
    + intros _. split; [reflexivity|].
      intros H400. apply Z.leb_le in H400. rewrite H400. reflexivity.
    + intros; contradiction.
Qed.

Lemma C5_witness :
  fst (api_request always_401_crm (lit "GET")
         (contacts_query (lit "79161234567")) JNull true authenticated)
  = Ok JNull.
Proof.
  destruct (C5_api_request always_401_crm (lit "GET")
              (contacts_query (lit "79161234567")) JNull authenticated)
    as (_ & _ & _ & H401).
  destruct (H401 eq_refl) as [Hok _].
  destruct (Hok _ eq_refl) as [_ Hnull].
  apply Hnull. vm_compute. discriminate.
Defined.

(** ** C10: a failed lookup and the unsorted lead *)

Section Lookup.
Context `{PyUnicode}.
Variable crm : server.
Variable fs : list file.

Lemma api_request_http_error (method : str) (ep : endpoint) (data : json)
    (st st' : amocrm) :
  ends_in_http_error crm method ep data st st' ->
  api_request crm method ep data true st = (Ok JNull, st').
Proof.
  intros [(Hne & H400 & ->) | (H401 & st2 & Hr & H400 & ->)].
  - rewrite (api_request_first_not_401 crm method ep data st Hne).
    rewrite api_request_no_retry. apply Z.leb_le in H400. rewrite H400.
    reflexivity.
  - rewrite (api_request_first_401 crm method ep data st H401), Hr.
    rewrite api_request_no_retry. apply Z.leb_le in H400. rewrite H400.
    reflexivity.
Qed.

(** [find_contact] turns every falsy answer of [api_request], [None]
    included, into [None]. *)
Lemma find_contact_falsy (p : str) (v : json) (st st' : amocrm) :
  api_request crm (lit "GET") (contacts_query (List.filter isdigit p)) JNull
    true st = (Ok v, st') ->
  py_bool v = false ->
  find_contact crm p st = (Ok JNull, st').
Proof.
  intros Hreq Hv. unfold find_contact, bind. rewrite Hreq, Hv. reflexivity.
Qed.

(** So does it with an answer that lists no contact. *)
Lemma find_contact_empty_list (p : str) (st st' : amocrm) :
  api_request crm (lit "GET") (contacts_query (List.filter isdigit p)) JNull
    true st
  = (Ok (JDict [(lit "_embedded", JDict [(lit "contacts", JList [])])]), st') ->
  find_contact crm p st = (Ok JNull, st').
Proof.
  intros Hreq. unfold find_contact, bind. rewrite Hreq. reflexivity.
Qed.

(** In either file a lookup whose request raises, raises; and one whose
    answer lists no contact gives [None]. *)
Lemma find_contact_of_raise (f : source_file) (p : str) (e : exn)
    (st st' : amocrm) :
  api_request crm (lit "GET") (contacts_query (List.filter isdigit p)) JNull
    true st = (Raise e, st') ->
  find_contact_of f crm p st = (Raise e, st').
Proof.
  intros Hreq.
  destruct f; simpl; unfold find_contact, IntegrationDebug.find_contact, bind;
    rewrite Hreq; reflexivity.
Qed.

Lemma find_contact_of_no_contact (f : source_file) (p : str) (v : json)
    (st st' : amocrm) :
  api_request crm (lit "GET") (contacts_query (List.filter isdigit p)) JNull
    true st = (Ok v, st') ->
  lists_no_contact v ->
  find_contact_of f crm p st = (Ok JNull, st').
Proof.
  intros Hreq Hno.
  destruct f; simpl; unfold find_contact, IntegrationDebug.find_contact,
    bind at 1; rewrite Hreq;
    (destruct (py_bool v) eqn:Hv; [|reflexivity]);
    (destruct Hno as [Hf | (emb & cs & He & Hc & Hb)]; [congruence|]);
    unfold bind, lift; rewrite He, Hc, Hb; reflexivity.
Qed.

(** Without a contact, [process_call] goes on with [create_unsorted] and
    nothing else; and what the lookup raises, [process_call] raises. *)
Lemma process_call_no_contact (f : source_file) (cd : call_data)
    (st st' : amocrm) :
  find_contact_of f crm (phone cd) st = (Ok JNull, st') ->
  process_call_of f crm fs cd st
  = (create_unsorted crm (phone cd) ;;; ret tt) st'.
Proof.
  intros Hfc.
  destruct f; simpl in *;
    unfold Integration.process_call, IntegrationDebug.process_call, bind at 1;
    rewrite Hfc; reflexivity.
Qed.

Lemma process_call_lookup_raises (f : source_file) (cd : call_data)
    (e : exn) (st st' : amocrm) :
  find_contact_of f crm (phone cd) st = (Raise e, st') ->
  process_call_of f crm fs cd st = (Raise e, st').
Proof.
  intros Hfc.
  destruct f; simpl in *;
    unfold Integration.process_call, IntegrationDebug.process_call, bind at 1;
    rewrite Hfc; reflexivity.
Qed.

(** [create_unsorted] starts with the POST to [leads/unsorted/forms]. *)
Lemma create_unsorted_posts (p : str) (st : amocrm) :
  exists data more,
    sent (snd (create_unsorted crm p st))
    = more ++ ApiRequest (lit "POST") leads_unsorted_forms (access_token st) data
           :: sent st.
Proof.
  unfold create_unsorted. cbv zeta.
  match goal with |- context [api_request crm _ _ ?d true st] => set (data := d) end.
  exists data.
  set (rq1 := ApiRequest (lit "POST") leads_unsorted_forms (access_token st) data).
  destruct (Z.eq_dec (resp_status (crm (rq1 :: sent st))) 401) as [Hs|Hs].
  - rewrite (api_request_first_401 crm _ _ data st Hs). fold rq1.
    pose proof (refresh_tokens_sent crm (after_request rq1 st)) as Hsent.
    destruct (refresh_tokens crm (after_request rq1 st)) as [[[]|e] st2];
      simpl in Hsent.
    + rewrite api_request_no_retry. simpl. rewrite Hsent.
      eexists [_; _]. reflexivity.
    + simpl. rewrite Hsent. eexists [_]. reflexivity.
  - rewrite (api_request_first_not_401 crm _ _ data st Hs).
    rewrite api_request_no_retry. exists []. reflexivity.
Qed.

End Lookup.

(** The claim as worded fails: with tokens that can no longer be
    refreshed the lookup is answered 401, the refresh raises, and
    [process_call] ends with that exception; no request for an unsorted
    lead is sent. *)
Lemma C10_counterexample :
  fst (Integration.process_call expired_crm [] sample_fact unauthenticated)
    = Raise (KeyError (lit "access_token")) /\
  sent (snd (Integration.process_call expired_crm [] sample_fact
               unauthenticated))
    = [TokenRequest (lit "refresh_token") JNull;
       ApiRequest (lit "GET") (contacts_query (lit "79161234567")) JNull
         JNull] /\
  List.map
    (fun history => resp_status (expired_crm history))
    [[ApiRequest (lit "GET") (contacts_query (lit "79161234567")) JNull JNull]]
  = [401].
Proof. repeat split. Qed.

(** C10 (amended).  In either file: when the lookup request ends in an
    HTTP status from 400 on (at once, or on the retry that follows a 401
    and a successful refresh), [find_contact] returns [None], and
    [process_call] goes on exactly as it does after a lookup that any CRM
    answers without a contact: it runs [create_unsorted], whose first
    request is the POST to [leads/unsorted/forms], and nothing else.
    When instead the refresh that a 401 triggers raises, that exception
    leaves [find_contact] and [process_call], and after the lookup and
    the token request nothing is sent: no lead is created. *)
Theorem C10_http_error_creates_unsorted `{PyUnicode} (f : source_file)
    (crm : server) (fs : list file) (cd : call_data) (st : amocrm) :
  let ep := contacts_query (List.filter isdigit (phone cd)) in
  let rq1 := ApiRequest (lit "GET") ep (access_token st) JNull in
  (forall st',
     ends_in_http_error crm (lit "GET") ep JNull st st' ->
     find_contact_of f crm (phone cd) st = (Ok JNull, st') /\
     process_call_of f crm fs cd st
       = (create_unsorted crm (phone cd) ;;; ret tt) st' /\
     exists data more,
       sent (snd (process_call_of f crm fs cd st))
       = more ++ ApiRequest (lit "POST") leads_unsorted_forms
                   (access_token st') data
              :: sent st') /\
  (forall crm0 st0 result,
     let rq0 := ApiRequest (lit "GET") ep (access_token st0) JNull in
     resp_status (crm0 (rq0 :: sent st0)) < 400 ->
     resp_json (crm0 (rq0 :: sent st0)) = Some result ->
     lists_no_contact result ->
     find_contact_of f crm0 (phone cd) st0 = (Ok JNull, after_request rq0 st0) /\
     process_call_of f crm0 fs cd st0
       = (create_unsorted crm0 (phone cd) ;;; ret tt) (after_request rq0 st0)) /\
  (forall crm0 st0 st0',
     find_contact_of f crm0 (phone cd) st0 = (Ok JNull, st0') ->
     process_call_of f crm0 fs cd st0
       = (create_unsorted crm0 (phone cd) ;;; ret tt) st0') /\
  (forall e st2,
     resp_status (crm (rq1 :: sent st)) = 401 ->
     refresh_tokens crm (after_request rq1 st) = (Raise e, st2) ->
     find_contact_of f crm (phone cd) st = (Raise e, st2) /\
     process_call_of f crm fs cd st = (Raise e, st2) /\
     sent st2
       = TokenRequest (lit "refresh_token") (refresh_token st)
           :: rq1 :: sent st).
Proof.
  cbv zeta. split; [|split; [|split]].
  - intros st' Herr.
    assert (Hfc : find_contact_of f crm (phone cd) st = (Ok JNull, st')).
    { apply (find_contact_of_no_contact crm f (phone cd) JNull);
        [|left; reflexivity].
      apply api_request_http_error, Herr. }
    split; [exact Hfc|].
    pose proof (process_call_no_contact crm fs f cd st st' Hfc) as Hpc.
    split; [exact Hpc|].
    rewrite Hpc. unfold bind.
    destruct (create_unsorted_posts crm (phone cd) st') as (data & more & Hs).
    exists data, more.
    destruct (create_unsorted crm (phone cd) st') as [[v|e] st3]; exact Hs.
  - intros crm0 st0 result Hs Hbody Hno.
    set (rq0 := ApiRequest (lit "GET")
                  (contacts_query (List.filter isdigit (phone cd)))
                  (access_token st0) JNull) in *.
    assert (Hfc : find_contact_of f crm0 (phone cd) st0
                  = (Ok JNull, after_request rq0 st0)).
    { apply (find_contact_of_no_contact crm0 f (phone cd) result); [|exact Hno].
      rewrite (api_request_first_not_401 crm0 _ _ JNull st0)
        by (fold rq0; lia).
      rewrite api_request_no_retry. fold rq0.
      destruct (Z.leb_spec 400 (resp_status (crm0 (rq0 :: sent st0)))); [lia|].
      unfold json_of. rewrite Hbody. reflexivity. }
    split; [exact Hfc | apply process_call_no_contact, Hfc].
  - intros crm0 st0 st0'. apply process_call_no_contact.
  - intros e st2 H401 Hr.
    assert (Hfc : find_contact_of f crm (phone cd) st = (Raise e, st2)).
    { apply find_contact_of_raise.
      rewrite (api_request_first_401 crm _ _ JNull st H401), Hr. reflexivity. }
    split; [exact Hfc|]. split; [apply process_call_lookup_raises, Hfc|].
    pose proof (refresh_tokens_sent crm
                  (after_request
                     (ApiRequest (lit "GET")
                        (contacts_query (List.filter isdigit (phone cd)))
                        (access_token st) JNull) st)) as Hsent.
    rewrite Hr in Hsent. exact Hsent.
Qed.

Lemma C10_witness :
  (find_contact_of integration_py always_500_crm (phone sample_fact)
     authenticated
   = (Ok JNull,
      after_request
        (ApiRequest (lit "GET")
           (contacts_query (List.filter isdigit (phone sample_fact)))
           (access_token authenticated) JNull) authenticated)) /\
  (process_call_of (integration_debug_py
                      {| process_internal_calls := false; test_phone := None |})
     expired_crm [] sample_fact unauthenticated
   = (Raise (KeyError (lit "access_token")),
      snd (refresh_tokens expired_crm
             (after_request
                (ApiRequest (lit "GET")
                   (contacts_query (List.filter isdigit (phone sample_fact)))
                   (access_token unauthenticated) JNull) unauthenticated)))).
Proof.
  split.
  - assert (Herr : ends_in_http_error always_500_crm (lit "GET")
              (contacts_query (List.filter isdigit (phone sample_fact))) JNull
              authenticated
              (after_request
                 (ApiRequest (lit "GET")
                    (contacts_query (List.filter isdigit (phone sample_fact)))
                    (access_token authenticated) JNull) authenticated)).
    { left. split; [vm_compute; discriminate|].
      split; [vm_compute; discriminate | reflexivity]. }
    exact (proj1 (proj1 (C10_http_error_creates_unsorted integration_py
                           always_500_crm [] sample_fact authenticated)
                    _ Herr)).
  - exact (proj1 (proj2 (proj2 (proj2 (proj2
             (C10_http_error_creates_unsorted
                (integration_debug_py
                   {| process_internal_calls := false; test_phone := None |})
                expired_crm [] sample_fact unauthenticated)))
             (KeyError (lit "access_token")) _ eq_refl eq_refl))).
Defined.

(** ** C7: refreshes running at the same time *)

Section Interleaving.
Variable crm : server.

(** A task run alone, start to end, is [refresh_tokens]. *)
Lemma lone_task_is_refresh_tokens (st : amocrm) :
  run_schedule crm [0; 0]%nat [NotStarted] st
  = ([Finished (fst (refresh_tokens crm st))
        (access_token (snd (refresh_tokens crm st)),
         refresh_token (snd (refresh_tokens crm st)))],
     snd (refresh_tokens crm st)).
Proof.
  rewrite refresh_tokens_two_steps.
  unfold run_schedule, resume, refresh_step, bind.
  rewrite refresh_send_sent.
  destruct (refresh_receive _ _) as [r st']. reflexivity.
Qed.

(** Each run of a task sends one token request if the task was not
    started, none otherwise. *)
Lemma refresh_step_requests (t : refresh_task) (st : amocrm) :
  (count_token_requests (sent (snd (refresh_step crm t st)))
   + count_not_started [fst (refresh_step crm t st)]
   = count_token_requests (sent st) + count_not_started [t])%nat.
Proof.
  destruct t as [|resp|r o]; [unfold refresh_step | simpl | simpl].
  - rewrite refresh_send_sent. unfold count_token_requests, count_not_started.
    simpl. lia.
  - pose proof (refresh_receive_sent resp st) as Hs.
    destruct (refresh_receive resp st) as [r st']. simpl in *.
    rewrite Hs. reflexivity.
  - reflexivity.
Qed.

Lemma resume_requests (i : nat) (tasks : list refresh_task) (st : amocrm) :
  (count_token_requests (sent (snd (resume crm i tasks st)))
   + count_not_started (fst (resume crm i tasks st))
   = count_token_requests (sent st) + count_not_started tasks)%nat
  /\ length (fst (resume crm i tasks st)) = length tasks.
Proof.
  revert i. induction tasks as [|t tasks IH]; intros i; simpl; [split; reflexivity|].
  destruct i as [|i].
  - pose proof (refresh_step_requests t st) as Hstep.
    destruct (refresh_step crm t st) as [t' st']. simpl in *.
    unfold count_not_started in *. simpl in *.
    destruct (is_started t'), (is_started t); simpl in *; split; lia.
  - destruct (IH i) as [Hreq Hlen].
    destruct (resume crm i tasks st) as [tasks' st']. simpl in *.
    unfold count_not_started in *. simpl.
    destruct (is_started t); simpl; split; lia.
Qed.

Lemma run_schedule_requests (schedule : list nat)
    (tasks : list refresh_task) (st : amocrm) :
  (count_token_requests (sent (snd (run_schedule crm schedule tasks st)))
   + count_not_started (fst (run_schedule crm schedule tasks st))
   = count_token_requests (sent st) + count_not_started tasks)%nat
  /\ length (fst (run_schedule crm schedule tasks st)) = length tasks.
Proof.
  revert tasks st. induction schedule as [|i schedule IH]; intros tasks st;
    simpl; [split; reflexivity|].
  destruct (resume_requests i tasks st) as [Hreq Hlen].
  destruct (resume crm i tasks st) as [tasks' st']. simpl in *.
  destruct (IH tasks' st') as [Hreq' Hlen']. split; lia.
Qed.

End Interleaving.

Lemma count_not_started_repeat (n : nat) :
  count_not_started (List.repeat NotStarted n) = n.
Proof.
  unfold count_not_started. induction n as [|n IH]; simpl; [reflexivity|].
  rewrite IH. reflexivity.
Qed.

Lemma finished_none_waiting (tasks : list refresh_task) :
  forallb is_finished tasks = true -> count_not_started tasks = 0%nat.
Proof.
  unfold count_not_started.
  induction tasks as [|t tasks IH]; simpl; [reflexivity|].
  rewrite andb_true_iff. intros [Ht Hts].
  destruct t; simpl in *; try discriminate. apply IH, Hts.
Qed.

(** The claim as worded fails: two refreshes that overlap (both send
    before either gets its answer) make two exchanges, and against a CRM
    that rotates the pair their callers resume with different pairs. *)
Lemma C7_counterexample :
  run_schedule rotating_crm [0; 1; 0; 1]%nat [NotStarted; NotStarted]
    authenticated
  = ([Finished (Ok tt) (JStr (lit "a1"), JStr (lit "r1"));
      Finished (Ok tt) (JStr (lit "a11"), JStr (lit "r11"))],
     {| access_token := JStr (lit "a11"); refresh_token := JStr (lit "r11");
        token_file := Some (JStr (lit "a11"), JStr (lit "r11"));
        sent := [TokenRequest (lit "refresh_token") (JStr (lit "r"));
                 TokenRequest (lit "refresh_token") (JStr (lit "r"))] |})
  /\ count_token_requests
       (sent (snd (run_schedule rotating_crm [0; 1; 0; 1]%nat
                     [NotStarted; NotStarted] authenticated)))
     = 2%nat.
Proof. split; reflexivity. Qed.

(** C7 (amended).  Nothing guards [refresh_tokens]: whatever the order in
    which the event loop resumes [n] refresh tasks, every task that has
    started has sent its own token request, so once all [n] have finished
    exactly [n] exchanges have been made. *)
Theorem C7_one_exchange_per_refresh (crm : server) (n : nat)
    (schedule : list nat) (st : amocrm) :
  let out := run_schedule crm schedule (List.repeat NotStarted n) st in
  length (fst out) = n /\
  (count_token_requests (sent (snd out)) + count_not_started (fst out)
   = count_token_requests (sent st) + n)%nat /\
  (forallb is_finished (fst out) = true ->
   count_token_requests (sent (snd out))
   = (count_token_requests (sent st) + n)%nat).
Proof.
  cbv zeta.
  destruct (run_schedule_requests crm schedule (List.repeat NotStarted n) st)
    as [Hreq Hlen].
  rewrite count_not_started_repeat in Hreq. rewrite repeat_length in Hlen.
  split; [exact Hlen|]. split; [exact Hreq|].
  intros Hfin. rewrite (finished_none_waiting _ Hfin) in Hreq. lia.
Qed.

Lemma C7_witness :
  forallb is_finished
    (fst (run_schedule rotating_crm [0; 1; 0; 1]%nat
            (List.repeat NotStarted 2) authenticated)) = true /\
  count_token_requests
    (sent (snd (run_schedule rotating_crm [0; 1; 0; 1]%nat
                  (List.repeat NotStarted 2) authenticated)))
  = (count_token_requests (sent authenticated) + 2)%nat.
Proof.
  split; [reflexivity|].
  exact (proj2 (proj2 (C7_one_exchange_per_refresh rotating_crm 2
                         [0; 1; 0; 1]%nat authenticated)) eq_refl).
Defined.

(** ** C9: locating the recording *)

Lemma endswith_spec (suffix s : str) :
  endswith suffix s = true <-> exists stem, s = stem ++ suffix.
Proof.
  unfold endswith. rewrite startswith_spec. split.
  - intros [t Ht]. exists (rev t).
    apply (f_equal (@rev N)) in Ht. rewrite rev_involutive in Ht.
    rewrite Ht, rev_app_distr, rev_involutive. reflexivity.
  - intros [stem ->]. exists (rev stem). apply rev_app_distr.
Qed.

(** [glob_match] is the shape [*<uniqueid>*.<ext>] on names that do not
    start with a dot. *)
Lemma glob_match_spec (uniqueid ext name : str) :
  glob_match uniqueid ext name = true
  <-> startswith (lit ".") name = false
      /\ exists a b, name = a ++ uniqueid ++ b ++ lit "." ++ ext.
Proof.
  unfold glob_match.
  rewrite !andb_true_iff, negb_true_iff, endswith_spec, contains_spec.
  split.
  - intros [[Hdot [stem Hstem]] [a [b Hab]]]. split; [exact Hdot|].
    exists a, b. rewrite Hstem in Hab.
    rewrite length_app, Nat.add_sub in Hab.
    rewrite take_app_length in Hab.
    rewrite Hstem, Hab, <- !app_assoc. reflexivity.
  - intros [Hdot [a [b Hab]]]. split; [split; [exact Hdot|]|].
    + exists (a ++ uniqueid ++ b). rewrite Hab, <- !app_assoc. reflexivity.
    + exists a, b.
      replace name with ((a ++ uniqueid ++ b) ++ (lit "." ++ ext))
        by (rewrite Hab, <- !app_assoc; reflexivity).
      rewrite length_app, Nat.add_sub. apply take_app_length.
Qed.

Lemma max_by_mtime_spec (best : file) (files : list file) :
  In (max_by_mtime best files) (best :: files) /\
  forall g, In g (best :: files) -> mtime g <= mtime (max_by_mtime best files).
Proof.
  revert best. induction files as [|f files IH]; intros best; simpl.
  - split; [left; reflexivity|]. intros g [<- | []]. lia.
  - destruct (IH (if Z.ltb (mtime best) (mtime f) then f else best))
      as [Hin Hmax].
    split.
    + destruct Hin as [Heq | Hin]; [|right; right; exact Hin].
      rewrite <- Heq. destruct (Z.ltb (mtime best) (mtime f)); auto.
    + intros g Hg.
      assert (Hpick : mtime best <= mtime (if Z.ltb (mtime best) (mtime f) then f else best)
                      /\ mtime f <= mtime (if Z.ltb (mtime best) (mtime f) then f else best)).
      { destruct (Z.ltb_spec (mtime best) (mtime f)); lia. }
      pose proof (Hmax _ (or_introl eq_refl)) as Hfirst.
      destruct Hg as [<- | [<- | Hg]]; [lia | lia |].
      apply Hmax. right. exact Hg.
Qed.

Lemma find_recording_from_spec (fs : list file) (uniqueid : str)
    (pats : list str) :
  match find_recording_from fs uniqueid pats with
  | None => Forall (fun ext => glob fs uniqueid ext = []) pats
  | Some p =>
      exists tried ext rest f,
        pats = tried ++ ext :: rest /\
        Forall (fun ext' => glob fs uniqueid ext' = []) tried /\
        In f (glob fs uniqueid ext) /\
        p = file_path f /\
        forall g, In g (glob fs uniqueid ext) -> mtime g <= mtime f
  end.
Proof.
  induction pats as [|ext pats IH]; simpl; [constructor|].
  destruct (glob fs uniqueid ext) as [|f files] eqn:Hglob.
  - destruct (find_recording_from fs uniqueid pats) as [p|].
    + destruct IH as (tried & ext' & rest & f & -> & Htried & Hin & Hp & Hmax).
      exists (ext :: tried), ext', rest, f.
      split; [reflexivity|]. split; [constructor; assumption|]. auto.
    + constructor; assumption.
  - exists [], ext, pats, (max_by_mtime f files).
    destruct (max_by_mtime_spec f files) as [Hin Hmax].
    rewrite Hglob. split; [reflexivity|]. split; [constructor|]. auto.
Qed.

(** On the listing of a walk, [glob] keeps the visible entries whose
    name matches. *)
Lemma glob_walked (tree : list entry) (uniqueid ext : str) :
  glob (walked tree) uniqueid ext
  = List.map (fun e => {| file_path := entry_path e; mtime := entry_mtime e |})
      (List.filter
         (fun e => visible (entry_path e)
                   && glob_match uniqueid ext (basename (entry_path e)))
         tree).
Proof.
  unfold glob, walked.
  induction tree as [|e tree IH]; [reflexivity|].
  cbn [List.filter].
  destruct (visible (entry_path e)); cbn [andb List.map List.filter].
  - cbn [file_path].
    destruct (glob_match uniqueid ext (basename (entry_path e)));
      cbn [List.map]; rewrite IH; reflexivity.
  - exact IH.
Qed.

(** Directories that match no pattern do not bear on the search. *)
Lemma glob_regular_files (tree : list entry) (uniqueid ext : str) :
  (forall e, In e tree -> entry_is_dir e = true ->
             visible (entry_path e) = true ->
             glob_match uniqueid ext (basename (entry_path e)) = false) ->
  glob (walked tree) uniqueid ext
  = glob (walked (regular_files tree)) uniqueid ext.
Proof.
  intros Hdirs. rewrite !glob_walked. f_equal. unfold regular_files.
  induction tree as [|e tree IH]; [reflexivity|].
  cbn [List.filter].
  assert (IH' := IH (fun e' Hin => Hdirs e' (or_intror Hin))).
  destruct (entry_is_dir e) eqn:Hdir; cbn [negb].
  - destruct (visible (entry_path e)) eqn:Hvis; cbn [andb]; [|exact IH'].
    rewrite (Hdirs e (or_introl eq_refl) Hdir Hvis). exact IH'.
  - cbn [List.filter]. rewrite IH'. reflexivity.
Qed.

(** The claim as worded fails four times: a recording kept as [.MP3] is
    not found although its extension is an allowed one up to case; of a
    [.wav] and a later [.mp3] of the same call the older [.wav] is
    returned; a recording below a dot-directory of the storage is not
    found; and a directory that carries a matching name is returned in
    place of the recording. *)
Lemma C9_counterexample :
  find_recording (walked upper_case_tree) sample_uid = None /\
  RecordingLocator_spec (stored upper_case_tree) sample_uid
    = Some (lit "/var/spool/asterisk/monitor/2021/10/18/in-1634567890.123.MP3") /\
  find_recording (walked two_formats_tree) sample_uid
    = Some (lit "/var/spool/asterisk/monitor/2021/10/18/in-1634567890.123.wav") /\
  RecordingLocator_spec (stored two_formats_tree) sample_uid
    = Some (lit "/var/spool/asterisk/monitor/2021/10/18/in-1634567890.123.mp3") /\
  find_recording (walked dot_directory_tree) sample_uid = None /\
  RecordingLocator_spec (stored dot_directory_tree) sample_uid
    = Some (lit "/var/spool/asterisk/monitor/.trash/in-1634567890.123.wav") /\
  find_recording (walked directory_match_tree) sample_uid
    = Some (lit "/var/spool/asterisk/monitor/in-1634567890.123.wav") /\
  RecordingLocator_spec (stored directory_match_tree) sample_uid
    = Some (lit "/var/spool/asterisk/monitor/2021/in-1634567890.123.wav").
Proof. repeat split; reflexivity. Qed.

(** C9 (amended).  For a [uniqueid] without glob metacharacters and
    without a slash, and whatever the storage holds, [find_recording]
    tries the endings [.wav], [.WAV] and [.mp3] in this order, each
    matched exactly as written.  What an ending matches are the entries
    of the storage, regular files and directories alike, that lie below
    [recordings_dir] with no component starting with a dot and whose
    name has the shape [*<uniqueid>*.<ending>].  The result is a
    latest-modified entry among those of the first ending that matches
    any, and [None] when no entry matches any of the three.  Where no
    visible directory carries a matching name, the result is that of the
    search among the regular files alone. *)
Theorem C9_find_recording (tree : list entry) (uniqueid : str) :
  has_magic uniqueid = false ->
  contains (lit "/") uniqueid = false ->
  let fs := walked tree in
  patterns = [lit "wav"; lit "WAV"; lit "mp3"] /\
  (forall ext f,
     In f (glob fs uniqueid ext)
     <-> exists e,
           In e tree
           /\ f = {| file_path := entry_path e; mtime := entry_mtime e |}
           /\ visible (entry_path e) = true
           /\ startswith (lit ".") (basename (entry_path e)) = false
           /\ exists a b,
                basename (entry_path e) = a ++ uniqueid ++ b ++ lit "." ++ ext) /\
  (find_recording fs uniqueid = None
   <-> forall ext, In ext patterns -> glob fs uniqueid ext = []) /\
  (forall p,
     find_recording fs uniqueid = Some p ->
     exists tried ext rest f,
       patterns = tried ++ ext :: rest /\
       (forall ext', In ext' tried -> glob fs uniqueid ext' = []) /\
       In f (glob fs uniqueid ext) /\
       p = file_path f /\
       forall g, In g (glob fs uniqueid ext) -> mtime g <= mtime f) /\
  ((forall e ext,
      In e tree -> In ext patterns -> entry_is_dir e = true ->
      visible (entry_path e) = true ->
      glob_match uniqueid ext (basename (entry_path e)) = false) ->
   find_recording fs uniqueid
   = find_recording (walked (regular_files tree)) uniqueid).
Proof.
  intros _ _ fs. subst fs.
  split; [reflexivity|]. split; [|split; [|split]].
  - intros ext f. rewrite glob_walked, in_map_iff. split.
    + intros (e & <- & Hin). apply filter_In in Hin.
      destruct Hin as [Hin Hm]. apply andb_true_iff in Hm.
      destruct Hm as [Hvis Hm]. apply glob_match_spec in Hm.
      exists e. tauto.
    + intros (e & Hin & -> & Hvis & Hdot & Hshape).
      exists e. split; [reflexivity|]. apply filter_In. split; [exact Hin|].
      apply andb_true_iff. split; [exact Hvis|].
      apply glob_match_spec. tauto.
  - unfold find_recording.
    pose proof (find_recording_from_spec (walked tree) uniqueid patterns)
      as Hspec.
    destruct (find_recording_from (walked tree) uniqueid patterns) as [p|].
    + split; [discriminate|]. intros Hnone.
      destruct Hspec as (tried & ext & rest & f & Hpat & _ & Hin & _).
      rewrite (Hnone ext) in Hin; [destruct Hin|].
      rewrite Hpat. apply in_or_app. right. left. reflexivity.
    + split; [|reflexivity]. intros _ ext Hext.
      rewrite List.Forall_forall in Hspec. apply Hspec, Hext.
  - intros p Hp. unfold find_recording in Hp.
    pose proof (find_recording_from_spec (walked tree) uniqueid patterns)
      as Hspec.
    rewrite Hp in Hspec.
    destruct Hspec as (tried & ext & rest & f & Hpat & Htried & Hin & Hpf & Hmax).
    exists tried, ext, rest, f. rewrite List.Forall_forall in Htried. auto.
  - intros Hdirs. unfold find_recording, patterns.
    cbn [find_recording_from].
    rewrite <- !glob_regular_files; [reflexivity| | |];
      intros e Hin Hdir Hvis; apply Hdirs; auto; cbn; auto.
Qed.

Lemma C9_witness :
  find_recording (walked two_formats_tree) sample_uid
    = Some (lit "/var/spool/asterisk/monitor/2021/10/18/in-1634567890.123.wav") /\
  find_recording (walked two_formats_tree) sample_uid
    = find_recording (walked (regular_files two_formats_tree)) sample_uid /\
  exists tried ext rest f,
    patterns = tried ++ ext :: rest /\
    (forall ext', In ext' tried ->
       glob (walked two_formats_tree) sample_uid ext' = []) /\
    In f (glob (walked two_formats_tree) sample_uid ext) /\
    lit "/var/spool/asterisk/monitor/2021/10/18/in-1634567890.123.wav"
      = file_path f /\
    forall g, In g (glob (walked two_formats_tree) sample_uid ext) ->
              mtime g <= mtime f.
Proof.
  pose proof (C9_find_recording two_formats_tree sample_uid eq_refl eq_refl)
    as (_ & _ & _ & Hsome & Hdirs).
  split; [reflexivity|]. split.
  - apply Hdirs. intros e ext [<- | [<- | [<- | []]]] Hext Hdir _;
      try discriminate Hdir.
    destruct Hext as [<- | [<- | [<- | []]]]; reflexivity.
  - exact (Hsome _ eq_refl).
Defined.

(** * Further properties of the handler *)

Lemma filter_all_true {A} (p : A -> bool) (l : list A) :
  Forall (fun x => p x = true) l -> List.filter p l = l.
Proof.
  induction 1 as [|x l Hx _ IH]; simpl; [reflexivity|].
  rewrite Hx, IH. reflexivity.
Qed.

Lemma filter_filter_same {A} (p : A -> bool) (l : list A) :
  List.filter p (List.filter p l) = List.filter p l.
Proof.
  apply filter_all_true, Forall_forall. intros x Hx.
  apply list_elem_of_In, filter_In in Hx. apply Hx.
Qed.

Lemma extract_phone_callerid `{PyUnicode} (c : call) :
  extract_phone c = extract_phone (call_with_callerid (callerid c)).
Proof. reflexivity. Qed.

(** X1.  A phone number that [extract_phone] returns is a fixed point of
    the normalisation, and is never an 11-digit number that starts
    with 8. *)
Theorem X1_extract_phone_idempotent `{PyUnicode} (c : call) (p : str) :
  extract_phone c = Some p ->
  extract_phone (call_with_callerid p) = Some p /\
  (startswith (lit "8") p && Nat.eqb (length p) 11 = false).
Proof.
  intros Hp. destruct (extract_phone_Some c p Hp) as (Hdig & _ & Hlen).
  rewrite extract_phone_refines in Hp.
  assert (Hshape : startswith (lit "8") p && Nat.eqb (length p) 11 = false).
  { unfold PhoneNormalizer_spec in Hp.
    destruct (List.filter isdigit (callerid c)) as [|d rest]; [discriminate|].
    destruct (Nat.eqb (length (d :: rest)) 11 && N.eqb d 56) eqn:Hrepl.
    - destruct (Nat.leb 10 (length (55%N :: rest))); [|discriminate].
      injection Hp as <-. reflexivity.
    - destruct (Nat.leb 10 (length (d :: rest))); [|discriminate].
      injection Hp as <-.
      cbn [startswith lit List.map list_ascii_of_string].
      change (N_of_ascii "8") with 56%N.
      rewrite andb_true_r, (N.eqb_sym 56 d), andb_comm. exact Hrepl. }
  split; [|exact Hshape].
  unfold extract_phone. simpl callerid.
  rewrite (filter_all_true isdigit p Hdig), Hshape.
  apply Nat.leb_le in Hlen. rewrite Hlen. reflexivity.
Qed.

Lemma X1_witness :
  extract_phone (call_with_callerid (lit "79161234567"))
  = Some (lit "79161234567").
Proof.
  exact (proj1 (X1_extract_phone_idempotent
                  (call_with_callerid (lit "8-916-123-45-67"))
                  (lit "79161234567") eq_refl)).
Defined.

Section Isolation.
Context `{PyUnicode}.

(** What an event does to the entry of its own id, and the tasks it
    creates, depend on that entry alone. *)
Lemma handle_local (f : source_file) (now : datetime) (ev : event)
    (tbl1 tbl2 : gmap str call) :
  tbl1 !! event_uniqueid ev = tbl2 !! event_uniqueid ev ->
  snd (handle_of f now ev tbl1) = snd (handle_of f now ev tbl2) /\
  fst (handle_of f now ev tbl1) !! event_uniqueid ev
    = fst (handle_of f now ev tbl2) !! event_uniqueid ev.
Proof.
  intros Heq. destruct ev as [u ch cid ex ctx | u | u cause]; simpl in Heq.
  - destruct f; simpl;
      unfold Integration.on_new_channel, IntegrationDebug.on_new_channel;
      rewrite !lookup_insert_eq; split; reflexivity.
  - assert (Hb : on_bridge_enter now u tbl1 !! u = on_bridge_enter now u tbl2 !! u).
    { unfold on_bridge_enter. rewrite <- Heq.
      destruct (tbl1 !! u) as [c|] eqn:Hu.
      - rewrite !lookup_insert_eq. reflexivity.
      - rewrite Hu. exact Heq. }
    destruct f; simpl; split; try reflexivity; exact Hb.
  - split.
    + destruct f as [|config]; simpl;
        unfold Integration.on_hangup, IntegrationDebug.on_hangup;
        rewrite <- Heq; destruct (tbl1 !! u) as [c|]; try reflexivity;
        destruct (duration_status c now _) as [d s];
        match goal with |- context [if ?b then _ else _] => destruct b end;
        reflexivity.
    + simpl. rewrite !hangup_retires. reflexivity.
Qed.

(** An event leaves the entries of other ids alone, and creates no task
    that carries another id. *)
Lemma handle_frame (f : source_file) (now : datetime) (ev : event)
    (uid : str) (tbl : gmap str call) :
  event_uniqueid ev <> uid ->
  fst (handle_of f now ev tbl) !! uid = tbl !! uid /\
  facts_of uid (snd (handle_of f now ev tbl)) = [].
Proof.
  intros Hne. destruct ev as [u ch cid ex ctx | u | u cause]; simpl in Hne.
  - destruct f; simpl;
      unfold Integration.on_new_channel, IntegrationDebug.on_new_channel;
      rewrite lookup_insert_ne by exact Hne; split; reflexivity.
  - assert (Hb : on_bridge_enter now u tbl !! uid = tbl !! uid).
    { unfold on_bridge_enter. destruct (tbl !! u) as [c|]; [|reflexivity].
      apply lookup_insert_ne, Hne. }
    destruct f; simpl; split; try reflexivity; exact Hb.
  - split; [apply hangup_other, Hne|].
    unfold facts_of.
    destruct (List.filter _ (snd (handle_of f now (Hangup u cause) tbl)))
      as [|cd rest] eqn:Hf; [reflexivity|].
    assert (Hin : In cd (List.filter
                          (fun cd => bool_decide (cd_uniqueid cd = uid))
                          (snd (handle_of f now (Hangup u cause) tbl))))
      by (rewrite Hf; left; reflexivity).
    apply filter_In in Hin as [Hin Hcd]. apply bool_decide_eq_true in Hcd.
    destruct (hangup_task f now u cause tbl cd Hin) as (c & _ & _ & _ & Hu & _).
    congruence.
Qed.

Lemma handle_own_facts (f : source_file) (now : datetime) (ev : event)
    (tbl : gmap str call) :
  facts_of (event_uniqueid ev) (snd (handle_of f now ev tbl))
  = snd (handle_of f now ev tbl).
Proof.
  unfold facts_of. apply filter_all_true, Forall_forall. intros cd Hin.
  apply list_elem_of_In in Hin. apply bool_decide_eq_true.
  destruct ev as [u ch cid ex ctx | u | u cause].
  - destruct f; simpl in Hin; destruct Hin.
  - destruct f; simpl in Hin; destruct Hin.
  - destruct (hangup_task f now u cause tbl cd Hin) as (c & _ & _ & _ & Hu & _).
    exact Hu.
Qed.

End Isolation.

(** X2.  Calls do not interfere: in either file, the tasks created for
    one id over any stream of events, and the entry left for it, are
    those the events of that id alone give, from any table that agrees on
    that id. *)
Theorem X2_sessions_independent `{PyUnicode} (f : source_file) (uid : str)
    (evs : list (datetime * event)) (tbl1 tbl2 : gmap str call) :
  tbl1 !! uid = tbl2 !! uid ->
  facts_of uid (snd (run (handle_of f) evs tbl1))
    = snd (run (handle_of f) (events_of uid evs) tbl2) /\
  fst (run (handle_of f) evs tbl1) !! uid
    = fst (run (handle_of f) (events_of uid evs) tbl2) !! uid.
Proof.
  revert tbl1 tbl2. induction evs as [|[now ev] evs IH]; intros tbl1 tbl2 Heq.
  - simpl. split; [reflexivity | exact Heq].
  - cbn [run events_of List.filter snd].
    destruct (bool_decide (event_uniqueid ev = uid)) eqn:Hev.
    + apply bool_decide_eq_true in Hev. subst uid.
      destruct (handle_local f now ev tbl1 tbl2 Heq) as [Hout Htbl].
      pose proof (handle_own_facts f now ev tbl1) as Hown.
      cbn [run].
      destruct (handle_of f now ev tbl1) as [t1 o1].
      destruct (handle_of f now ev tbl2) as [t2 o2].
      simpl in Hout, Htbl, Hown. subst o2.
      destruct (IH t1 t2 Htbl) as [IHf IHt]. fold (events_of (event_uniqueid ev) evs).
      destruct (run (handle_of f) evs t1) as [t1' o1'].
      destruct (run (handle_of f) (events_of (event_uniqueid ev) evs) t2)
        as [t2' o2'].
      simpl in *. unfold facts_of in *. rewrite List.filter_app, Hown, IHf.
      split; [reflexivity | exact IHt].
    + apply bool_decide_eq_false in Hev.
      destruct (handle_frame f now ev uid tbl1 Hev) as [Htbl Hnone].
      destruct (handle_of f now ev tbl1) as [t1 o1].
      simpl in Htbl, Hnone.
      destruct (IH t1 tbl2 (eq_trans Htbl Heq)) as [IHf IHt].
      fold (events_of uid evs).
      destruct (run (handle_of f) evs t1) as [t1' o1'].
      simpl in *. unfold facts_of in *. rewrite List.filter_app, Hnone.
      split; [exact IHf | exact IHt].
Qed.

Lemma X2_witness :
  facts_of sample_uid
    (snd (run (handle_of integration_py)
            ((1000000, Newchannel (lit "7.7") (lit "SIP/101-0002") (lit "101")
                         (lit "s") (lit "from-internal"))
             :: day_long_call) ∅))
  = snd (run (handle_of integration_py)
           (events_of sample_uid
              ((1000000, Newchannel (lit "7.7") (lit "SIP/101-0002") (lit "101")
                           (lit "s") (lit "from-internal"))
               :: day_long_call)) ∅).
Proof.
  exact (proj1 (X2_sessions_independent integration_py sample_uid
                  ((1000000, Newchannel (lit "7.7") (lit "SIP/101-0002")
                               (lit "101") (lit "s") (lit "from-internal"))
                   :: day_long_call) ∅ ∅ eq_refl)).
Defined.

Lemma extract_phone_truthy `{PyUnicode} (c : call) (p : str) :
  extract_phone c = Some p -> truthy (Some p) = true.
Proof.
  intros Hp. destruct (extract_phone_Some c p Hp) as (_ & _ & Hlen).
  destruct p; simpl in *; [lia | reflexivity].
Qed.

Lemma extract_phone_long_callerid `{PyUnicode} (c : call) (p : str) :
  extract_phone c = Some p -> Nat.leb (length (callerid c)) 4 = false.
Proof.
  intros Hp. destruct (extract_phone_Some c p Hp) as (_ & Hlen & Hten).
  pose proof (filter_length_le isdigit (callerid c)) as Hle.
  apply Nat.leb_gt. lia.
Qed.

(** However often a call enters a bridge, its entry keeps the time of
    the last entering. *)
Lemma run_bridge_enters `{PyUnicode} (u : str) (times : list datetime)
    (c : call) (tbl : gmap str call) :
  tbl !! u = Some c ->
  run Integration.handle (bridge_enters u times) tbl
  = (match last times with
     | Some t => <[u := answered_at t c]> tbl
     | None => tbl
     end, []).
Proof.
  revert c tbl. induction times as [|t times IH]; intros c tbl Hc;
    [reflexivity|].
  cbn [bridge_enters List.map run Integration.handle].
  unfold on_bridge_enter at 1. rewrite Hc. fold (answered_at t c).
  fold (bridge_enters u times).
  rewrite (IH (answered_at t c) _ (lookup_insert_eq tbl u _)).
  destruct times as [|t' times']; [reflexivity|].
  change (last (t :: t' :: times')) with (last (t' :: times')).
  destruct (last (t' :: times')) as [tl|] eqn:Hl.
  - rewrite insert_insert_eq. reflexivity.
  - exfalso. clear -Hl. revert t' Hl.
    induction times' as [|x xs IHx]; intros t' Hl; [discriminate|].
    apply (IHx x). exact Hl.
Qed.

(** X3.  A whole call in [integration.py]: a NewChannel, any number of
    BridgeEnter events, then the Hangup, from any table.  The entry is
    gone afterwards; exactly one task is created if the caller id
    normalises to a phone, none otherwise; the task carries that phone,
    the direction of the channel name and the creation time; its status
    is "ANSWERED" and its duration counted from the last BridgeEnter if
    there was one, else the status is the cause text and the duration
    0. *)
Theorem X3_call_lifecycle `{PyUnicode} (tbl : gmap str call)
    (u ch cid ex ctx : str) (t0 t2 : datetime) (bridges : list datetime)
    (cause : option str) :
  run Integration.handle
    ((t0, Newchannel u ch cid ex ctx)
     :: bridge_enters u bridges ++ [(t2, Hangup u cause)]) tbl
  = (delete u tbl,
     match extract_phone (call_with_callerid cid) with
     | Some p =>
         [{| phone := p;
             cd_direction := Integration.detect_direction ch;
             duration := match last bridges with
                         | Some t1 => timedelta_seconds t2 t1
                         | None => 0
                         end;
             status := match last bridges with
                       | Some _ => lit "ANSWERED"
                       | None => default (lit "UNKNOWN") cause
                       end;
             cd_uniqueid := u;
             timestamp := t0;
             internal_call := None |}]
     | None => []
     end).
Proof.
  change ((t0, Newchannel u ch cid ex ctx)
          :: bridge_enters u bridges ++ [(t2, Hangup u cause)])
    with ([(t0, Newchannel u ch cid ex ctx)]
          ++ bridge_enters u bridges ++ [(t2, Hangup u cause)]).
  rewrite !run_app, !run_single.
  cbn [Integration.handle fst snd app].
  unfold Integration.on_new_channel.
  rewrite (run_bridge_enters u bridges _ _ (lookup_insert_eq tbl u _)).
  cbn [fst snd app].
  destruct (last bridges) as [t1|];
    unfold Integration.on_hangup; rewrite ?lookup_insert_eq;
    cbn [duration_status answer_time answered_at start_time call_direction];
    rewrite extract_phone_callerid; cbn [callerid answered_at];
    destruct (extract_phone (call_with_callerid cid)) as [p|] eqn:Hp;
    rewrite ?(extract_phone_truthy _ p Hp); cbn [truthy negb default fst snd];
    rewrite ?insert_insert_eq, delete_insert_eq; reflexivity.
Qed.

(** X4.  Where the debug substitution is off (no
    ["process_internal_calls"], or no test phone), the [on_hangup] of
    [integration_debug.py] does what that of [integration.py] does: the
    same table, and the same tasks but for the added ["internal_call"],
    which is [False]. *)
Theorem X4_on_hangup_debug_off `{PyUnicode} (config : debug_config)
    (now : datetime) (u : str) (cause : option str) (tbl : gmap str call) :
  process_internal_calls config && truthy (test_phone config) = false ->
  fst (IntegrationDebug.on_hangup config now u cause tbl)
    = fst (Integration.on_hangup now u cause tbl) /\
  List.map (fun cd => (phone cd, cd_direction cd, duration cd, status cd,
                       cd_uniqueid cd, timestamp cd))
    (snd (IntegrationDebug.on_hangup config now u cause tbl))
  = List.map (fun cd => (phone cd, cd_direction cd, duration cd, status cd,
                         cd_uniqueid cd, timestamp cd))
      (snd (Integration.on_hangup now u cause tbl)) /\
  Forall (fun cd => internal_call cd = Some false)
    (snd (IntegrationDebug.on_hangup config now u cause tbl)).
Proof.
  intros Hoff. unfold IntegrationDebug.on_hangup, Integration.on_hangup.
  destruct (tbl !! u) as [c|]; [|repeat split; constructor].
  destruct (duration_status c now _) as [d s].
  destruct (extract_phone c) as [p|] eqn:Hp.
  - rewrite (extract_phone_truthy c p Hp). cbn [negb andb].
    rewrite (extract_phone_truthy c p Hp). cbn [negb].
    rewrite (extract_phone_long_callerid c p Hp).
    repeat split. repeat constructor.
  - cbn [truthy negb andb].
    destruct (process_internal_calls config); cbn [andb] in *;
      [rewrite Hoff|]; cbn [truthy negb]; repeat split; constructor.
Qed.

Lemma X4_witness :
  fst (IntegrationDebug.on_hangup
         {| process_internal_calls := false; test_phone := None |}
         9000000 sample_uid None
         (fst (run Integration.handle answered_call ∅)))
  = fst (Integration.on_hangup 9000000 sample_uid None
           (fst (run Integration.handle answered_call ∅))).
Proof.
  exact (proj1 (X4_on_hangup_debug_off
                  {| process_internal_calls := false; test_phone := None |}
                  9000000 sample_uid None
                  (fst (run Integration.handle answered_call ∅)) eq_refl)).
Defined.

(** X5.  In [integration_debug.py] a task comes from a hangup in one of
    two ways: its phone is the normalised caller id, and then
    ["internal_call"] is [False]; or the caller id gave no phone, the
    debug substitution is on, and the phone is the configured test
    phone.  So a task flagged as an internal call always carries the
    test phone. *)
Theorem X5_debug_substitution `{PyUnicode} (config : debug_config)
    (now : datetime) (u : str) (cause : option str) (tbl : gmap str call)
    (cd : call_data) :
  In cd (snd (IntegrationDebug.on_hangup config now u cause tbl)) ->
  exists c,
    tbl !! u = Some c /\
    ((extract_phone c = Some (phone cd) /\ internal_call cd = Some false)
     \/ (extract_phone c = None /\
         process_internal_calls config = true /\
         test_phone config = Some (phone cd) /\
         internal_call cd = Some (Nat.leb (length (callerid c)) 4))).
Proof.
  unfold IntegrationDebug.on_hangup.
  destruct (tbl !! u) as [c|]; [|intros []]. intros Hin. exists c.
  split; [reflexivity|].
  destruct (duration_status c now _) as [d s].
  destruct (extract_phone c) as [p|] eqn:Hp.
  - rewrite (extract_phone_truthy c p Hp) in Hin. cbn [negb andb] in Hin.
    rewrite (extract_phone_truthy c p Hp) in Hin. cbn [negb] in Hin.
    destruct Hin as [<- | []]. left. simpl.
    rewrite (extract_phone_long_callerid c p Hp). split; reflexivity.
  - cbn [truthy negb andb] in Hin.
    destruct (process_internal_calls config); cbn [andb] in Hin.
    + destruct (test_phone config) as [[|x tp]|]; simpl in Hin;
        try contradiction.
      destruct Hin as [<- | []]. right. simpl. repeat split.
    + simpl in Hin. contradiction.
Qed.

Lemma X5_witness :
  exists c,
    (<[lit "9.9" := call_with_callerid (lit "101")]> ∅ : gmap str call)
      !! lit "9.9" = Some c /\
    ((extract_phone c = Some (lit "79990001122") /\ Some true = Some false)
     \/ (extract_phone c = None /\
         true = true /\
         Some (lit "79990001122") = Some (lit "79990001122") /\
         Some true = Some (Nat.leb (length (callerid c)) 4))).
Proof.
  exact (X5_debug_substitution
           {| process_internal_calls := true;
              test_phone := Some (lit "79990001122") |}
           9000000 (lit "9.9") None
           (<[lit "9.9" := call_with_callerid (lit "101")]> ∅)
           {| phone := lit "79990001122"; cd_direction := unknown;
              duration := 0; status := lit "UNKNOWN";
              cd_uniqueid := lit "9.9"; timestamp := 0;
              internal_call := Some true |}
           (or_introl eq_refl)).
Defined.

(** X6.  The table grows only by NewChannel events: in either file,
    after any stream of events it holds at most as many entries more
    than before as there were NewChannel events; BridgeEnter never adds
    an entry and Hangup never leaves more than it found. *)
Theorem X6_table_bounded `{PyUnicode} (f : source_file)
    (evs : list (datetime * event)) (tbl : gmap str call) :
  (size (fst (run (handle_of f) evs tbl)) <= size tbl + count_newchannels evs)%nat.
Proof.
  revert tbl. induction evs as [|[now ev] evs IH]; intros tbl;
    [simpl; lia|].
  assert (Hstep : (size (fst (handle_of f now ev tbl))
                   <= size tbl + match ev with
                                 | Newchannel _ _ _ _ _ => 1
                                 | _ => 0
                                 end)%nat).
  { destruct ev as [u ch cid ex ctx | u | u cause].
    - destruct f; simpl;
        unfold Integration.on_new_channel, IntegrationDebug.on_new_channel;
        rewrite map_size_insert; destruct (tbl !! u); simpl; lia.
    - assert (Hb : (size (on_bridge_enter now u tbl) <= size tbl + 0)%nat).
      { unfold on_bridge_enter. destruct (tbl !! u) as [c|] eqn:Hu; [|lia].
        rewrite map_size_insert, Hu. simpl. lia. }
      destruct f; exact Hb.
    - destruct (hangup_cases f now u cause tbl)
        as [[_ ->] | [c [_ [out [-> _]]]]]; simpl; [lia|].
      rewrite map_size_delete. destruct (tbl !! u); simpl; lia. }
  cbn [run]. destruct (handle_of f now ev tbl) as [t1 o1].
  specialize (IH t1). destruct (run (handle_of f) evs t1) as [t2 o2].
  unfold count_newchannels in *. simpl in *.
  destruct ev; simpl in *; lia.
Qed.

(** * Further properties of the CRM client *)

Section MoreClient.
Context `{PyUnicode}.
Variable crm : server.

Lemma getitem_dict_get (v : json) (key : str) (x dflt : json) :
  getitem v key = Ok x ->
  dict_get v key dflt = Ok x /\ py_bool v = true.
Proof.
  destruct v as [| | | | |d]; simpl; try discriminate.
  destruct (dict_lookup key d) as [y|] eqn:Hy; [|discriminate].
  intros [= <-]. split; [reflexivity|].
  destruct d; [discriminate | reflexivity].
Qed.

(** A first answer below 400 is final: its body is the result, or the
    parser's exception if it is not JSON. *)
Lemma api_request_success (method : str) (ep : endpoint) (data : json)
    (st : amocrm) :
  let rq := ApiRequest method ep (access_token st) data in
  resp_status (crm (rq :: sent st)) < 400 ->
  api_request crm method ep data true st
  = (json_of (crm (rq :: sent st)), after_request rq st).
Proof.
  intros rq Hs.
  rewrite (api_request_first_not_401 crm method ep data st) by (fold rq; lia).
  rewrite api_request_no_retry. fold rq.
  destruct (Z.leb_spec 400 (resp_status (crm (rq :: sent st)))); [lia|].
  reflexivity.
Qed.

(** The requests of [api_request] come on top of those sent before, and
    none of them is an upload. *)
Lemma api_request_uploads (method : str) (ep : endpoint) (data : json)
    (retry : bool) (st : amocrm) :
  count_uploads (sent (snd (api_request crm method ep data retry st)))
  = count_uploads (sent st).
Proof.
  destruct retry; [|rewrite api_request_no_retry; reflexivity].
  set (rq := ApiRequest method ep (access_token st) data).
  destruct (Z.eq_dec (resp_status (crm (rq :: sent st))) 401) as [Hs|Hs].
  - rewrite (api_request_first_401 crm method ep data st Hs). fold rq.
    pose proof (refresh_tokens_sent crm (after_request rq st)) as Hsent.
    destruct (refresh_tokens crm (after_request rq st)) as [[[]|e] st2];
      simpl in Hsent.
    + rewrite api_request_no_retry. simpl. rewrite Hsent. reflexivity.
    + simpl. rewrite Hsent. reflexivity.
  - rewrite (api_request_first_not_401 crm method ep data st Hs).
    rewrite api_request_no_retry. reflexivity.
Qed.

Lemma find_contact_state (p : str) (st : amocrm) :
  snd (find_contact crm p st)
  = snd (api_request crm (lit "GET") (contacts_query (List.filter isdigit p))
           JNull true st).
Proof.
  unfold find_contact, bind, lift, ret.
  destruct (api_request crm _ _ _ _ st) as [[result|e] st1]; [|reflexivity].
  destruct (py_bool result); [|reflexivity].
  destruct (dict_get result _ _) as [embedded|e]; [|reflexivity].
  destruct (dict_get embedded _ _) as [contacts|e]; [|reflexivity].
  destruct (py_bool contacts); [|reflexivity].
  destruct (getitem result _) as [e1|e]; [|reflexivity].
  destruct (getitem e1 _) as [cs|e]; [|reflexivity].
  destruct (getitem0 cs); reflexivity.
Qed.

Lemma getitem_is_dict (v : json) (key : str) (x : json) :
  getitem v key = Ok x -> exists d, v = JDict d.
Proof. destruct v; simpl; try discriminate. eauto. Qed.

(** The lookup of [integration_debug.py] against that of
    [integration.py]: the same requests; the same result when the latter
    returns a contact that has an id; and otherwise the same result or an
    exception in its place. *)
Lemma find_contact_debug_vs_base (p : str) (st : amocrm) :
  snd (IntegrationDebug.find_contact crm p st) = snd (find_contact crm p st) /\
  (fst (IntegrationDebug.find_contact crm p st) = fst (find_contact crm p st)
   \/ exists e, fst (IntegrationDebug.find_contact crm p st) = Raise e) /\
  (forall c cid,
     fst (find_contact crm p st) = Ok c ->
     getitem c (lit "id") = Ok cid ->
     fst (IntegrationDebug.find_contact crm p st) = Ok c) /\
  (fst (IntegrationDebug.find_contact crm p st) = Ok JNull ->
   fst (find_contact crm p st) = Ok JNull).
Proof.
  unfold find_contact, IntegrationDebug.find_contact, bind, lift, ret.
  destruct (api_request crm _ _ _ _ st) as [[result|e] st1];
    [|cbn; repeat split; auto; discriminate].
  destruct (py_bool result); [|cbn; repeat split; auto; discriminate].
  destruct (dict_get result _ _) as [embedded|e];
    [|cbn; repeat split; auto; discriminate].
  destruct (dict_get embedded _ _) as [contacts|e];
    [|cbn; repeat split; auto; discriminate].
  destruct (py_bool contacts); [|cbn; repeat split; auto; discriminate].
  destruct (getitem result _) as [e1|e];
    [|cbn; repeat split; auto; discriminate].
  destruct (getitem e1 _) as [cs|e]; [|cbn; repeat split; auto; discriminate].
  destruct (getitem0 cs) as [c|e]; [|cbn; repeat split; auto; discriminate].
  destruct (getitem c (lit "id")) as [cid|e] eqn:Hid.
  - destruct (getitem_is_dict c _ _ Hid) as [d ->]. cbn.
    repeat split; eauto.
  - cbn [fst snd]. repeat split; eauto; try discriminate.
    intros c' cid' [= <-] Hid'. rewrite Hid in Hid'. discriminate.
Qed.

Lemma find_contact_of_state (f : source_file) (p : str) (st : amocrm) :
  snd (find_contact_of f crm p st)
  = snd (api_request crm (lit "GET") (contacts_query (List.filter isdigit p))
           JNull true st).
Proof.
  destruct f; simpl; [apply find_contact_state|].
  rewrite (proj1 (find_contact_debug_vs_base p st)). apply find_contact_state.
Qed.

End MoreClient.

(** X7.  [find_contact] looks the phone up by its digits alone, and of
    several contacts in the answer it takes the first.  In
    [integration.py] that contact is returned as it is; in
    [integration_debug.py] it is returned if it has an ["id"], and
    otherwise the exception of the log line that reads [contact['id']]
    is raised. *)
Theorem X7_find_contact_first_match `{PyUnicode} (crm : server) (p : str)
    (st : amocrm) :
  find_contact crm p st = find_contact crm (List.filter isdigit p) st /\
  (forall result embedded c others st1,
     api_request crm (lit "GET") (contacts_query (List.filter isdigit p))
       JNull true st = (Ok result, st1) ->
     getitem result (lit "_embedded") = Ok embedded ->
     getitem embedded (lit "contacts") = Ok (JList (c :: others)) ->
     find_contact crm p st = (Ok c, st1)) /\
  IntegrationDebug.find_contact crm p st
    = IntegrationDebug.find_contact crm (List.filter isdigit p) st /\
  (forall result embedded c others st1,
     api_request crm (lit "GET") (contacts_query (List.filter isdigit p))
       JNull true st = (Ok result, st1) ->
     getitem result (lit "_embedded") = Ok embedded ->
     getitem embedded (lit "contacts") = Ok (JList (c :: others)) ->
     IntegrationDebug.find_contact crm p st
     = match getitem c (lit "id") with
       | Ok _ => (Ok c, st1)
       | Raise e => (Raise e, st1)
       end).
Proof.
  split; [|split; [|split]].
  - unfold find_contact. rewrite filter_filter_same. reflexivity.
  - intros result embedded c others st1 Hreq He Hc.
    unfold find_contact, bind, lift. rewrite Hreq.
    destruct (getitem_dict_get result _ embedded (JDict []) He) as [-> ->].
    destruct (getitem_dict_get embedded _ _ JNull Hc) as [-> _].
    simpl py_bool. cbn iota. rewrite He, Hc. reflexivity.
  - unfold IntegrationDebug.find_contact. rewrite filter_filter_same.
    reflexivity.
  - intros result embedded c others st1 Hreq He Hc.
    unfold IntegrationDebug.find_contact, bind, lift. rewrite Hreq.
    destruct (getitem_dict_get result _ embedded (JDict []) He) as [-> ->].
    destruct (getitem_dict_get embedded _ _ JNull Hc) as [-> _].
    simpl py_bool. cbn iota. rewrite He, Hc. cbn [getitem0].
    destruct (getitem c (lit "id")) as [cid|e] eqn:Hid; [|reflexivity].
    destruct (getitem_is_dict c _ _ Hid) as [d ->]. reflexivity.
Qed.

Lemma X7_witness :
  find_contact refusing_notes_crm (lit "+7 (916) 123-45-67") authenticated
  = (Ok (JDict [(lit "id", JNum 42)]),
     after_request
       (ApiRequest (lit "GET") (contacts_query (lit "79161234567"))
          (JStr (lit "a")) JNull) authenticated) /\
  IntegrationDebug.find_contact first_without_id_crm
    (lit "+7 (916) 123-45-67") authenticated
  = (Raise (KeyError (lit "id")),
     after_request
       (ApiRequest (lit "GET") (contacts_query (lit "79161234567"))
          (JStr (lit "a")) JNull) authenticated).
Proof.
  split.
  - exact (proj1 (proj2 (X7_find_contact_first_match refusing_notes_crm
                           (lit "+7 (916) 123-45-67") authenticated))
             _ _ (JDict [(lit "id", JNum 42)]) [] _ eq_refl eq_refl eq_refl).
  - exact (proj2 (proj2 (proj2 (X7_find_contact_first_match
                                  first_without_id_crm
                                  (lit "+7 (916) 123-45-67") authenticated)))
             _ _ (JDict [(lit "name", JStr (lit "Ann"))])
             [JDict [(lit "id", JNum 7)]] _ eq_refl eq_refl eq_refl).
Defined.

(** X8.  A lookup answered with a status below 400 but without a JSON
    body, as a 204 is, does not count as "not found": the parser's
    exception leaves [find_contact] and [process_call], in either file,
    and after the lookup nothing more is sent. *)
Theorem X8_lookup_without_body_raises `{PyUnicode} (f : source_file)
    (crm : server) (fs : list file) (cd : call_data) (st : amocrm) :
  let rq := ApiRequest (lit "GET")
              (contacts_query (List.filter isdigit (phone cd)))
              (access_token st) JNull in
  resp_status (crm (rq :: sent st)) < 400 ->
  resp_json (crm (rq :: sent st)) = None ->
  find_contact crm (phone cd) st
    = (Raise ContentTypeError, after_request rq st) /\
  process_call_of f crm fs cd st
    = (Raise ContentTypeError, after_request rq st) /\
  find_contact_of f crm (phone cd) st
    = (Raise ContentTypeError, after_request rq st).
Proof.
  intros rq Hs Hbody.
  assert (Hreq : api_request crm (lit "GET")
                   (contacts_query (List.filter isdigit (phone cd))) JNull
                   true st
                 = (Raise ContentTypeError, after_request rq st)).
  { rewrite (api_request_success crm _ _ JNull st Hs). fold rq.
    unfold json_of. rewrite Hbody. reflexivity. }
  split; [exact (find_contact_of_raise crm integration_py _ _ _ _ Hreq)|].
  pose proof (find_contact_of_raise crm f _ _ _ _ Hreq) as Hfc.
  split; [|exact Hfc].
  apply process_call_lookup_raises, Hfc.
Qed.

Lemma X8_witness :
  process_call_of integration_py no_content_crm [] sample_fact authenticated
  = (Raise ContentTypeError,
     after_request
       (ApiRequest (lit "GET")
          (contacts_query (List.filter isdigit (phone sample_fact)))
          (access_token authenticated) JNull) authenticated).
Proof.
  exact (proj1 (proj2 (X8_lookup_without_body_raises integration_py
                         no_content_crm [] sample_fact authenticated
                         ltac:(vm_compute; reflexivity) eq_refl))).
Defined.

Section MoreProcess.
Context `{PyUnicode}.
Variable crm : server.
Variable fs : list file.

(** A request whose every answer has the same status from 400 on, other
    than 401, ends there with [None]. *)
Lemma api_request_rejected (method : str) (ep : endpoint) (data : json)
    (st : amocrm) (s : Z) :
  400 <= s -> s <> 401 ->
  resp_status (crm (ApiRequest method ep (access_token st) data :: sent st)) = s ->
  api_request crm method ep data true st
  = (Ok JNull,
     after_request (ApiRequest method ep (access_token st) data) st).
Proof.
  intros H400 H401 Hs. apply api_request_http_error. left.
  rewrite Hs. repeat split; assumption.
Qed.



Lemma upload_recording_uploads (cid : json) (p : str) (st : amocrm) :
  (count_uploads (sent (snd (upload_recording crm fs cid p st)))
   <= count_uploads (sent st) + 1)%nat.
Proof.
  unfold upload_recording. destruct (path_exists fs p); simpl; [|lia].
  unfold count_uploads. simpl. lia.
Qed.

Lemma note_then_upload_uploads (cid data : json) (rp : option str)
    (st : amocrm) :
  let run_it :=
    (result <- api_request crm (lit "POST") (contact_notes cid) data true ;;
     (if truthy rp && path_exists fs (default [] rp)
      then upload_recording crm fs cid (default [] rp)
      else ret tt) ;;;
     ret result) st in
  (count_uploads (sent (snd run_it)) <= count_uploads (sent st) + 1)%nat /\
  (rp = None -> count_uploads (sent (snd run_it)) = count_uploads (sent st)).
Proof.
  cbv zeta. unfold bind.
  pose proof (api_request_uploads crm (lit "POST") (contact_notes cid) data
                true st) as Hreq.
  destruct (api_request crm (lit "POST") (contact_notes cid) data true st)
    as [[v|e] st1]; cbn [snd] in Hreq |- *.
  - destruct (truthy rp && path_exists fs (default [] rp)) eqn:Hup.
    + pose proof (upload_recording_uploads cid (default [] rp) st1) as Hu.
      destruct (upload_recording crm fs cid (default [] rp) st1)
        as [[[]|e] st2]; cbn [snd ret] in Hu |- *.
      * split; [lia|]. intros ->. discriminate.
      * split; [lia|]. intros ->. discriminate.
    + cbn [ret snd]. split; [lia|]. intros _. lia.
  - split; [lia|]. intros _. lia.
Qed.

Lemma add_call_to_contact_uploads (f : source_file) (cid : json)
    (phone : str) (cd : call_data) (rp : option str) (st : amocrm) :
  (count_uploads (sent (snd (add_call_to_contact_of f crm fs cid phone cd rp st)))
   <= count_uploads (sent st) + 1)%nat /\
  (rp = None ->
   count_uploads (sent (snd (add_call_to_contact_of f crm fs cid phone cd rp st)))
   = count_uploads (sent st)).
Proof.
  destruct f; apply note_then_upload_uploads.
Qed.

End MoreProcess.

(** X9.  In either file, [process_call] returns normally when the CRM
    refuses the unsorted lead: after a lookup without a contact it sends
    the one POST to [leads/unsorted/forms], and an answer with a status
    from 400 on other than 401 ends the call there, with no exception and
    nothing further sent. *)
Theorem X9_rejected_lead_is_silent `{PyUnicode} (f : source_file)
    (crm : server) (fs : list file) (cd : call_data) (st st1 : amocrm)
    (s : Z) :
  find_contact_of f crm (phone cd) st = (Ok JNull, st1) ->
  400 <= s -> s <> 401 ->
  (forall bearer data history,
     resp_status
       (crm (ApiRequest (lit "POST") leads_unsorted_forms bearer data :: history))
     = s) ->
  exists data,
    process_call_of f crm fs cd st
    = (Ok tt,
       after_request
         (ApiRequest (lit "POST") leads_unsorted_forms (access_token st1) data)
         st1).
Proof.
  intros Hfc H400 H401 Hcrm.
  rewrite (process_call_no_contact crm fs f cd st st1 Hfc).
  unfold create_unsorted. cbv zeta. unfold bind.
  eexists.
  rewrite (api_request_rejected crm _ _ _ st1 s H400 H401 (Hcrm _ _ _)).
  reflexivity.
Qed.

Lemma X9_witness :
  exists data,
    process_call_of integration_py always_500_crm [] sample_fact authenticated
    = (Ok tt,
       after_request
         (ApiRequest (lit "POST") leads_unsorted_forms
            (access_token authenticated) data)
         (after_request
            (ApiRequest (lit "GET")
               (contacts_query (List.filter isdigit (phone sample_fact)))
               (access_token authenticated) JNull) authenticated)).
Proof.
  exact (X9_rejected_lead_is_silent integration_py always_500_crm []
           sample_fact authenticated _ 500 eq_refl
           ltac:(vm_compute; discriminate) ltac:(discriminate)
           (fun _ _ _ => eq_refl)).
Defined.



(** [process_call] laid out by cases. *)
Lemma process_call_cases `{PyUnicode} (f : source_file) (crm : server)
    (fs : list file) (cd : call_data) (st : amocrm) :
  process_call_of f crm fs cd st
  = match find_contact_of f crm (phone cd) st with
    | (Raise e, st1) => (Raise e, st1)
    | (Ok contact, st1) =>
        if py_bool contact
        then
          match getitem contact (lit "id") with
          | Ok cid =>
              match add_call_to_contact_of f crm fs cid (phone cd) cd
                      (find_recording fs (cd_uniqueid cd)) st1 with
              | (Ok _, st2) => (Ok tt, st2)
              | (Raise e, st2) => (Raise e, st2)
              end
          | Raise e => (Raise e, st1)
          end
        else
          match create_unsorted crm (phone cd) st1 with
          | (Ok _, st2) => (Ok tt, st2)
          | (Raise e, st2) => (Raise e, st2)
          end
    end.
Proof.
  destruct f; simpl;
    unfold Integration.process_call, IntegrationDebug.process_call, bind, lift,
      ret;
    match goal with
    | |- context [match ?fc with pair _ _ => _ end] =>
        destruct fc as [[contact|e] st1]
    end;
    try reflexivity;
    destruct (py_bool contact); simpl; try reflexivity;
    destruct (getitem contact (lit "id")); reflexivity.
Qed.

(** X11.  In either file one [process_call] uploads at most one file,
    and none at all when the lookup gave no contact or no recording was
    located. *)
Theorem X11_at_most_one_upload `{PyUnicode} (f : source_file)
    (crm : server) (fs : list file) (cd : call_data) (st : amocrm) :
  (count_uploads (sent (snd (process_call_of f crm fs cd st)))
   <= count_uploads (sent st) + 1)%nat /\
  (find_recording fs (cd_uniqueid cd) = None ->
   count_uploads (sent (snd (process_call_of f crm fs cd st)))
   = count_uploads (sent st)) /\
  (forall contact st1,
     find_contact crm (phone cd) st = (Ok contact, st1) ->
     py_bool contact = false ->
     count_uploads (sent (snd (process_call_of f crm fs cd st)))
     = count_uploads (sent st)).
Proof.
  pose proof (find_contact_of_state crm f (phone cd) st) as Hst.
  pose proof (api_request_uploads crm (lit "GET")
                (contacts_query (List.filter isdigit (phone cd))) JNull true st)
    as Hlook.
  rewrite <- Hst in Hlook.
  assert (Hrel : forall contact st1,
            find_contact crm (phone cd) st = (Ok contact, st1) ->
            find_contact_of f crm (phone cd) st = (Ok contact, st1)
            \/ exists e, find_contact_of f crm (phone cd) st = (Raise e, st1)).
  { intros contact st1 Hbase. destruct f; simpl; [left; exact Hbase|].
    destruct (find_contact_debug_vs_base crm (phone cd) st)
      as (Hs & Hor & _).
    rewrite Hbase in Hs, Hor. cbn [fst snd] in Hs, Hor.
    destruct (IntegrationDebug.find_contact crm (phone cd) st) as [r s'].
    cbn [fst snd] in Hs, Hor. subst s'.
    destruct Hor as [-> | [e ->]]; [left | right; exists e]; reflexivity. }
  assert (Hlead : forall st1,
            count_uploads (sent (snd (create_unsorted crm (phone cd) st1)))
            = count_uploads (sent st1)).
  { intros st1. unfold create_unsorted. cbv zeta. apply api_request_uploads. }
  rewrite process_call_cases.
  destruct (find_contact_of f crm (phone cd) st) as [[contact|e] st1];
    cbn [snd] in Hlook.
  - destruct (py_bool contact) eqn:Hc.
    + destruct (getitem contact (lit "id")) as [cid|e].
      * destruct (add_call_to_contact_uploads crm fs f cid (phone cd) cd
                    (find_recording fs (cd_uniqueid cd)) st1) as [Hle Hnone].
        destruct (add_call_to_contact_of f crm fs cid (phone cd) cd
                    (find_recording fs (cd_uniqueid cd)) st1) as [[v|e] st2];
          cbn [snd] in Hle, Hnone |- *;
          (split; [lia|]; split;
           [ intros Hrec; rewrite (Hnone Hrec); exact Hlook
           | intros c' s' Hb Hc';
             destruct (Hrel c' s' Hb) as [[= <- <-] | [e' [=]]]; congruence ]).
      * cbn [snd]. split; [lia|]. split; [intros _; exact Hlook|].
        intros c' s' _ _. exact Hlook.
    + specialize (Hlead st1).
      destruct (create_unsorted crm (phone cd) st1) as [[v|e] st2];
        cbn [snd] in Hlead |- *;
        (split; [lia|]; split; [intros _; lia | intros c' s' _ _; lia]).
  - cbn [snd]. split; [lia|]. split; [intros _; exact Hlook|].
    intros c' s' _ _. exact Hlook.
Qed.

Lemma X11_witness :
  count_uploads
    (sent (snd (process_call_of integration_py refusing_notes_crm []
                  sample_fact authenticated)))
  = count_uploads (sent authenticated).
Proof.
  exact (proj1 (proj2 (X11_at_most_one_upload integration_py
                         refusing_notes_crm [] sample_fact authenticated))
           eq_refl).
Defined.

(** * Further properties of the token handling *)

Lemma refresh_receive_cases (resp : response) (st : amocrm) :
  match resp_json resp with
  | None => refresh_receive resp st = (Raise ContentTypeError, st)
  | Some body =>
      match getitem body (lit "access_token"),
            getitem body (lit "refresh_token") with
      | Ok a, Ok r =>
          refresh_receive resp st
          = (Ok tt, {| access_token := a; refresh_token := r;
                       token_file := Some (a, r); sent := sent st |})
      | Ok a, Raise e =>
          refresh_receive resp st
          = (Raise e, {| access_token := a; refresh_token := refresh_token st;
                         token_file := token_file st; sent := sent st |})
      | Raise e, _ => refresh_receive resp st = (Raise e, st)
      end
  end.
Proof.
  unfold refresh_receive, bind, lift, json_of, set_access_token,
    set_refresh_token, save_tokens.
  destruct (resp_json resp) as [body|]; [|reflexivity].
  destruct (getitem body (lit "access_token")) as [a|e]; [|reflexivity].
  simpl. destruct (getitem body (lit "refresh_token")) as [r|e]; reflexivity.
Qed.

Lemma refresh_receive_ok_persisted (resp : response) (st st' : amocrm) :
  refresh_receive resp st = (Ok tt, st') -> persisted st'.
Proof.
  pose proof (refresh_receive_cases resp st) as Hc.
  destruct (resp_json resp) as [body|]; [|rewrite Hc; discriminate].
  destruct (getitem body (lit "access_token")) as [a|e];
    [|rewrite Hc; discriminate].
  destruct (getitem body (lit "refresh_token")) as [r|e];
    rewrite Hc; [|discriminate].
  intros [= <-]. reflexivity.
Qed.

Lemma refresh_tokens_ok_persisted (crm : server) (st st' : amocrm) :
  refresh_tokens crm st = (Ok tt, st') -> persisted st'.
Proof.
  rewrite refresh_tokens_two_steps. unfold bind. rewrite refresh_send_sent.
  apply refresh_receive_ok_persisted.
Qed.

Lemma after_request_persisted (rq : request) (st : amocrm) :
  persisted st -> persisted (after_request rq st).
Proof. intros Hp. exact Hp. Qed.

Lemma api_request_persisted (crm : server) (method : str) (ep : endpoint)
    (data : json) (retry : bool) (st st' : amocrm) (v : json) :
  persisted st ->
  api_request crm method ep data retry st = (Ok v, st') ->
  persisted st'.
Proof.
  intros Hp. destruct retry.
  - set (rq := ApiRequest method ep (access_token st) data).
    destruct (Z.eq_dec (resp_status (crm (rq :: sent st))) 401) as [Hs|Hs].
    + rewrite (api_request_first_401 crm method ep data st Hs). fold rq.
      destruct (refresh_tokens crm (after_request rq st)) as [[[]|e] st2] eqn:Hr;
        [|discriminate].
      rewrite api_request_no_retry. intros [= _ <-].
      apply after_request_persisted, (refresh_tokens_ok_persisted crm _ _ Hr).
    + rewrite (api_request_first_not_401 crm method ep data st Hs).
      rewrite api_request_no_retry. intros [= _ <-].
      apply after_request_persisted, Hp.
  - rewrite api_request_no_retry. intros [= _ <-].
    apply after_request_persisted, Hp.
Qed.

Lemma exchange_code_returned (crm : server) (code : str) (st : amocrm) :
  let rq := TokenRequest (lit "authorization_code") (JStr code) in
  sent (snd (exchange_code crm code st)) = rq :: sent st /\
  (fst (exchange_code crm code st) = Returned tt ->
   resp_status (crm (rq :: sent st)) = 200 /\
   persisted (snd (exchange_code crm code st))).
Proof.
  cbv zeta. unfold exchange_code. cbv zeta.
  set (rq := TokenRequest (lit "authorization_code") (JStr code)).
  pose proof (refresh_receive_sent (crm (rq :: sent st)) (after_request rq st))
    as Hsent.
  destruct (Z.eqb_spec (resp_status (crm (rq :: sent st))) 200) as [Hs|Hs];
    cbn [negb].
  - destruct (refresh_receive (crm (rq :: sent st)) (after_request rq st))
      as [[[]|e] st2] eqn:Hr; cbn [snd fst] in Hsent |- *.
    + split; [exact Hsent|]. intros _. split; [exact Hs|].
      exact (refresh_receive_ok_persisted _ _ _ Hr).
    + split; [exact Hsent|]. intros [=].
  - cbn [snd fst]. split; [reflexivity | intros [=]].
Qed.

(** X12.  [exchange_code] sends one token request carrying the code.  An
    answer with any status but 200 raises the authorization error and
    leaves both tokens and the token file as they were; a 200 that carries
    both tokens makes them the client's pair and writes that pair to the
    token file. *)
Theorem X12_exchange_code (crm : server) (code : str) (st : amocrm) :
  let rq := TokenRequest (lit "authorization_code") (JStr code) in
  let resp := crm (rq :: sent st) in
  sent (snd (exchange_code crm code st)) = rq :: sent st /\
  (resp_status resp <> 200 ->
   exchange_code crm code st
   = (Raised (AuthorizationError resp), after_request rq st)) /\
  (resp_status resp = 200 ->
   forall body a r,
     resp_json resp = Some body ->
     getitem body (lit "access_token") = Ok a ->
     getitem body (lit "refresh_token") = Ok r ->
     exchange_code crm code st
     = (Returned tt,
        {| access_token := a; refresh_token := r;
           token_file := Some (a, r); sent := rq :: sent st |})) /\
  (fst (exchange_code crm code st) = Returned tt ->
   resp_status resp = 200 /\ persisted (snd (exchange_code crm code st))).
Proof.
  cbv zeta. unfold exchange_code. cbv zeta.
  set (rq := TokenRequest (lit "authorization_code") (JStr code)).
  pose proof (refresh_receive_sent (crm (rq :: sent st)) (after_request rq st))
    as Hsent.
  destruct (Z.eqb_spec (resp_status (crm (rq :: sent st))) 200) as [Hs|Hs];
    cbn [negb].
  - destruct (refresh_receive (crm (rq :: sent st)) (after_request rq st))
      as [[[]|e] st2] eqn:Hr; cbn [snd fst] in Hsent |- *.
    + split; [exact Hsent|]. split; [intros; contradiction|]. split.
      * intros _ body a r Hb Ha Hrt.
        pose proof (refresh_receive_cases (crm (rq :: sent st))
                      (after_request rq st)) as Hc.
        rewrite Hb, Ha, Hrt, Hr in Hc. injection Hc as ->. reflexivity.
      * intros _. split; [exact Hs|].
        exact (refresh_receive_ok_persisted _ _ _ Hr).
    + split; [exact Hsent|]. split; [intros; contradiction|]. split.
      * intros _ body a r Hb Ha Hrt.
        pose proof (refresh_receive_cases (crm (rq :: sent st))
                      (after_request rq st)) as Hc.
        rewrite Hb, Ha, Hrt, Hr in Hc. discriminate.
      * intros [=].
  - cbn [snd fst]. split; [reflexivity|]. split; [reflexivity|].
    split; [intros; contradiction | intros [=]].
Qed.

Lemma X12_witness :
  exchange_code expired_crm (lit "def50200") authenticated
  = (Raised
       (AuthorizationError
          (expired_crm
             (TokenRequest (lit "authorization_code") (JStr (lit "def50200"))
              :: sent authenticated))),
     after_request
       (TokenRequest (lit "authorization_code") (JStr (lit "def50200")))
       authenticated).
Proof.
  exact (proj1 (proj2 (X12_exchange_code expired_crm (lit "def50200")
                         authenticated))
           ltac:(vm_compute; discriminate)).
Defined.

(** X13.  [handle_oauth] replies 400 exactly when the code is missing or
    empty, and then has sent nothing and changed nothing; it replies 200
    only after a token answer with status 200, and then the tokens in
    memory are the ones in the token file; in every other case it replies
    500, having sent the one token request. *)
Theorem X13_handle_oauth (crm : server) (app : oauth_app)
    (code : option str) (st : amocrm) :
  let out := handle_oauth crm app code st in
  let rq := TokenRequest (lit "authorization_code") (JStr (default [] code)) in
  (reply_status (fst out) = 400 <-> truthy code = false) /\
  (reply_status (fst out) = 400 ->
   out = (NoCodeProvided (get_auth_code_url app), st)) /\
  (reply_status (fst out) = 200 ->
   resp_status (crm (rq :: sent st)) = 200 /\
   persisted (snd out) /\
   sent (snd out) = rq :: sent st) /\
  (reply_status (fst out) = 500 -> sent (snd out) = rq :: sent st) /\
  (reply_status (fst out) = 400 \/ reply_status (fst out) = 200
   \/ reply_status (fst out) = 500).
Proof.
  cbv zeta. unfold handle_oauth.
  destruct (truthy code) eqn:Hcode; cbn [negb].
  - destruct (exchange_code_returned crm (default [] code) st)
      as (Hsent & Hok).
    destruct (exchange_code crm (default [] code) st) as [[[]|e] st'];
      cbn [fst snd reply_status] in *.
    + destruct (Hok eq_refl) as [Hs Hp].
      split; [split; discriminate|]. split; [discriminate|].
      split; [intros _; auto|]. split; [discriminate|]. auto.
    + split; [split; discriminate|]. split; [discriminate|].
      split; [discriminate|]. split; [intros _; exact Hsent|]. auto.
  - cbn [fst snd reply_status].
    split; [split; reflexivity|]. split; [reflexivity|].
    split; [discriminate|]. split; [discriminate|]. auto.
Qed.

Lemma X13_witness :
  handle_oauth rotating_crm sample_app (Some []) authenticated
  = (NoCodeProvided (get_auth_code_url sample_app), authenticated).
Proof.
  exact (proj1 (proj2 (X13_handle_oauth rotating_crm sample_app (Some [])
                         authenticated)) eq_refl).
Defined.

(** X14.  The loop of [main] never lets a failed refresh out.  Off the
    hour a turn does nothing.  On the hour [integration.py] sends the
    token request whatever it holds, a null refresh token included, while
    [integration_debug.py] does so only when it holds a refresh token and
    otherwise sends nothing; with a refresh token held the two files do
    the same. *)
Theorem X14_main_loop_turn (crm : server) (minute : Z) (st : amocrm) :
  fst (Integration.main_loop_turn crm minute st) = Ok tt /\
  fst (IntegrationDebug.main_loop_turn crm minute st) = Ok tt /\
  (minute <> 0 ->
   Integration.main_loop_turn crm minute st = (Ok tt, st) /\
   IntegrationDebug.main_loop_turn crm minute st = (Ok tt, st)) /\
  (minute = 0 ->
   sent (snd (Integration.main_loop_turn crm minute st))
   = TokenRequest (lit "refresh_token") (refresh_token st) :: sent st) /\
  (py_bool (refresh_token st) = false ->
   IntegrationDebug.main_loop_turn crm minute st = (Ok tt, st)) /\
  (py_bool (refresh_token st) = true ->
   IntegrationDebug.main_loop_turn crm minute st
   = Integration.main_loop_turn crm minute st).
Proof.
  unfold Integration.main_loop_turn, IntegrationDebug.main_loop_turn.
  split; [destruct (Z.eqb minute 0); reflexivity|].
  split; [destruct (Z.eqb minute 0 && _); reflexivity|].
  split.
  { intros Hm. apply Z.eqb_neq in Hm. rewrite Hm. split; reflexivity. }
  split.
  { intros ->. cbn [Z.eqb snd]. apply refresh_tokens_sent. }
  split.
  { intros Hr. rewrite Hr, andb_false_r. reflexivity. }
  intros Hr. rewrite Hr, andb_true_r. reflexivity.
Qed.

Lemma X14_witness :
  IntegrationDebug.main_loop_turn expired_crm 0 unauthenticated
    = (Ok tt, unauthenticated) /\
  sent (snd (Integration.main_loop_turn expired_crm 0 unauthenticated))
    = [TokenRequest (lit "refresh_token") JNull].
Proof.
  split.
  - exact (proj1 (proj2 (proj2 (proj2 (proj2
             (X14_main_loop_turn expired_crm 0 unauthenticated))))) eq_refl).
  - exact (proj1 (proj2 (proj2 (proj2
             (X14_main_loop_turn expired_crm 0 unauthenticated)))) eq_refl).
Defined.

(** X15.  What a restart finds.  When a request returns normally from a
    state whose token file holds the pair in memory, the file holds the
    pair in memory afterwards as well, refreshed or not; so a client
    started anew on that file and loading it resumes with exactly that
    pair. *)
Theorem X15_restart_resumes (crm : server) (method : str) (ep : endpoint)
    (data : json) (retry : bool) (st st' : amocrm) (v : json) :
  persisted st ->
  api_request crm method ep data retry st = (Ok v, st') ->
  persisted st' /\
  fst (load_tokens (fresh_client (token_file st'))) = Ok tt /\
  access_token (snd (load_tokens (fresh_client (token_file st'))))
    = access_token st' /\
  refresh_token (snd (load_tokens (fresh_client (token_file st'))))
    = refresh_token st'.
Proof.
  intros Hp Hreq.
  pose proof (api_request_persisted crm method ep data retry st st' v Hp Hreq)
    as Hp'.
  split; [exact Hp'|]. unfold load_tokens, fresh_client. cbn [token_file].
  rewrite Hp'. repeat split.
Qed.

Lemma X15_witness :
  persisted
    (snd (api_request always_401_crm (lit "GET")
            (contacts_query (lit "79161234567")) JNull true authenticated)) /\
  access_token
    (snd (load_tokens
            (fresh_client
               (token_file
                  (snd (api_request always_401_crm (lit "GET")
                          (contacts_query (lit "79161234567")) JNull true
                          authenticated))))))
  = JStr (lit "a1").
Proof.
  destruct (X15_restart_resumes always_401_crm (lit "GET")
              (contacts_query (lit "79161234567")) JNull true authenticated
              _ JNull eq_refl eq_refl) as (Hp & _ & Ha & _).
  split; [exact Hp | exact Ha].
Defined.

(** X16.  A token answer that carries an access token but no refresh
    token leaves [refresh_tokens] half done: the [KeyError] is raised
    after the access token in memory has been replaced, and the refresh
    token and the token file stay as they were; so if the file held the
    pair in memory before and the access token is a new one, it no longer
    does. *)
Theorem X16_half_refresh (crm : server) (st : amocrm) (body a : json)
    (e : exn) :
  let rq := TokenRequest (lit "refresh_token") (refresh_token st) in
  resp_json (crm (rq :: sent st)) = Some body ->
  getitem body (lit "access_token") = Ok a ->
  getitem body (lit "refresh_token") = Raise e ->
  refresh_tokens crm st
  = (Raise e,
     {| access_token := a; refresh_token := refresh_token st;
        token_file := token_file st; sent := rq :: sent st |}) /\
  (persisted st -> a <> access_token st ->
   ~ persisted (snd (refresh_tokens crm st))).
Proof.
  intros rq Hb Ha Hr.
  assert (Heq : refresh_tokens crm st
                = (Raise e,
                   {| access_token := a; refresh_token := refresh_token st;
                      token_file := token_file st; sent := rq :: sent st |})).
  { rewrite refresh_tokens_two_steps. unfold bind. rewrite refresh_send_sent.
    fold rq.
    pose proof (refresh_receive_cases (crm (rq :: sent st))
                  {| access_token := access_token st;
                     refresh_token := refresh_token st;
                     token_file := token_file st; sent := rq :: sent st |}) as Hc.
    rewrite Hb, Ha, Hr in Hc. exact Hc. }
  split; [exact Heq|].
  intros Hp Hne Hp'. rewrite Heq in Hp'. unfold persisted in *.
  cbn [snd token_file access_token refresh_token] in Hp'.
  rewrite Hp in Hp'. congruence.
Qed.

Lemma X16_witness :
  refresh_tokens half_answer_crm authenticated
  = (Raise (KeyError (lit "refresh_token")),
     {| access_token := JStr (lit "a2"); refresh_token := JStr (lit "r");
        token_file := Some (JStr (lit "a"), JStr (lit "r"));
        sent := [TokenRequest (lit "refresh_token") (JStr (lit "r"))] |}).
Proof.
  exact (proj1 (X16_half_refresh half_answer_crm authenticated
                  (JDict [(lit "access_token", JStr (lit "a2"))])
                  (JStr (lit "a2")) (KeyError (lit "refresh_token"))
                  eq_refl eq_refl eq_refl)).
Defined.

(** * The configuration *)

(** X17.  The two [Config.get].  Where that of [integration.py] returns
    a value, that of [integration_debug.py] with the default [None]
    returns the same; where the first raises, it is the
    [AttributeError] of a value on the way that has no [.get], and the
    second returns [None].  With keys given, the second returns its
    default exactly where it would return [None] without one. *)
Theorem X17_config_get (data : json) (keys : list str) (dflt : json) :
  match Integration.Config_get data keys with
  | Ok v => IntegrationDebug.Config_get data keys JNull = v
  | Raise e =>
      e = AttributeError /\ IntegrationDebug.Config_get data keys JNull = JNull
  end /\
  (keys <> [] ->
   IntegrationDebug.Config_get data keys dflt
   = match IntegrationDebug.Config_get data keys JNull with
     | JNull => dflt
     | v => v
     end).
Proof.
  split.
  - revert data. induction keys as [|key keys IH]; intros data; simpl;
      [reflexivity|].
    destruct data as [| | | | |d]; simpl; try (split; reflexivity).
    destruct (dict_lookup key d) as [v|]; simpl; [|reflexivity].
    destruct v; try reflexivity; apply IH.
  - revert data. induction keys as [|key keys IH]; intros data Hne;
      [contradiction|].
    simpl. destruct data as [| | | | |d]; try reflexivity.
    destruct (dict_lookup key d) as [v|]; simpl; [|reflexivity].
    destruct keys as [|key' keys'].
    + destruct v; reflexivity.
    + destruct v; try reflexivity; apply IH; discriminate.
Qed.

Lemma X17_witness :
  IntegrationDebug.Config_get sample_config [lit "webhook"; lit "host"]
    (JStr (lit "0.0.0.0"))
  = JStr (lit "0.0.0.0").
Proof.
  exact (proj2 (X17_config_get sample_config [lit "webhook"; lit "host"]
                  (JStr (lit "0.0.0.0")))
           ltac:(discriminate)).
Defined.

(** * Overlapping refreshes *)

Section Overlap.
Variable crm : server.

Lemma resume_at (pre rest : list refresh_task) (t : refresh_task)
    (st : amocrm) :
  resume crm (length pre) (pre ++ t :: rest) st
  = (pre ++ fst (refresh_step crm t st) :: rest, snd (refresh_step crm t st)).
Proof.
  induction pre as [|x pre IH]; simpl.
  - destruct (refresh_step crm t st); reflexivity.
  - rewrite IH. reflexivity.
Qed.

Lemma start_all (m : nat) (pre : list refresh_task) (st : amocrm) :
  sent (snd (run_schedule crm (seq (length pre) m)
               (pre ++ List.repeat NotStarted m) st))
  = List.repeat (TokenRequest (lit "refresh_token") (refresh_token st)) m
    ++ sent st
  /\ refresh_token (snd (run_schedule crm (seq (length pre) m)
                           (pre ++ List.repeat NotStarted m) st))
     = refresh_token st.
Proof.
  revert pre st. induction m as [|m IH]; intros pre st; [split; reflexivity|].
  cbn [seq List.repeat run_schedule]. rewrite resume_at.
  unfold refresh_step. rewrite refresh_send_sent. cbn [fst snd].
  set (rq := TokenRequest (lit "refresh_token") (refresh_token st)).
  set (st1 := {| access_token := access_token st;
                 refresh_token := refresh_token st;
                 token_file := token_file st; sent := rq :: sent st |}).
  specialize (IH (pre ++ [AwaitingResponse (crm (rq :: sent st))]) st1).
  rewrite length_app, Nat.add_1_r, <- app_assoc in IH. cbn [app] in IH.
  destruct IH as [IHs IHr]. rewrite IHs, IHr. cbn [st1 sent refresh_token].
  split; [|reflexivity].
  fold rq. clear. induction m as [|m IHm]; [reflexivity|].
  cbn [List.repeat app]. rewrite IHm. reflexivity.
Qed.

End Overlap.

(** X18.  Refreshes that overlap all present the same refresh token: when
    [n] refresh tasks each reach their POST before any gets its answer,
    the [n] token requests sent carry the refresh token that was stored
    at the start. *)
Theorem X18_overlapping_refreshes_reuse_token (crm : server) (n : nat)
    (st : amocrm) :
  sent (snd (run_schedule crm (seq 0 n) (List.repeat NotStarted n) st))
  = List.repeat (TokenRequest (lit "refresh_token") (refresh_token st)) n
    ++ sent st.
Proof. exact (proj1 (start_all crm n [] st)). Qed.
